(** * Mini Hydraulic Power Plant calculator ([app.py])

    A shallow embedding of the computation core of [app.py] (unit
    conversion, power formulas, penstock sizing, turbine selection) and of
    the part of the Streamlit script that evaluates and displays them.

    Number models.  The program computes on Python [float] values, which
    are IEEE 754 binary64 numbers.  Two embeddings are given.

    - Module [F64] embeds floats as binary64 through the bit-level
      specification [SpecFloat] of the Standard Library: every product,
      quotient and square root is rounded to nearest even, and overflow,
      underflow, signed zeros, infinities and NaN behave as in Python.
      Every statement about a computed value is made on this model.

    - The definitions outside [F64] read the same source text over the
      real numbers [R].  They serve the statements that depend only on
      comparisons, on the velocity guard, on the truth value tested by the
      display and on the structure of the page.

    Python [int] values (the slider percentages) are embedded as [Z].
    Float multiplication and comparison raise no exception in Python;
    float division and [math.sqrt] can raise and are embedded with an
    explicit outcome type. *)

From Stdlib Require Import Reals Lra Lia ZArith String List Bool.
From Stdlib Require Import SpecFloat.
Import ListNotations.

Local Open Scope R_scope.

(** ** Python primitives used by the program *)

Module Py.

(** The exceptions the arithmetic of the program can raise. *)
Inductive exn : Set :=
| ValueError          (* math.sqrt of a negative number: "math domain error" *)
| ZeroDivisionError.  (* float division by zero *)

(** Outcome of evaluating a Python expression or call. *)
Inductive result (A : Type) : Type :=
| Return (a : A)
| Raise (e : exn).
Arguments Return {A} a.
Arguments Raise {A} e.

Definition bind {A B : Type} (m : result A) (k : A -> result B) : result B :=
  match m with
  | Return a => k a
  | Raise e => Raise e
  end.

(** [x <= y], [x < y] and [x == y] on floats. *)
Definition le (x y : R) : bool := if Rle_dec x y then true else false.
Definition lt (x y : R) : bool := if Rlt_dec x y then true else false.
Definition eq (x y : R) : bool := if Req_dec_T x y then true else false.

(** [x / y] on floats. *)
Definition div (x y : R) : result R :=
  if eq y 0 then Raise ZeroDivisionError else Return (x / y).

(** [math.sqrt(x)]. *)
Definition math_sqrt (x : R) : result R :=
  if lt x 0 then Raise ValueError else Return (sqrt x).

(** [math.pi]. *)
Definition math_pi : R := PI.

(** Truth value of an object that is a float or [None], as tested by
    [if obj:].  [None] and [0.0] are false, every other float is true. *)
Definition truthy (obj : option R) : bool :=
  match obj with
  | None => false
  | Some x => negb (eq x 0)
  end.

End Py.

Import Py.

Declare Scope py_scope.
Delimit Scope py_scope with py.
Notation "x <- m ;; k" := (Py.bind m (fun x => k))
  (at level 61, m at next level, right associativity) : py_scope.

(** ** The helper functions of [app.py] *)

(** [cusec_to_m3s]: discharge from cusec to cubic metres per second. *)
Definition cusec_to_m3s (Q_cusec : R) : R :=
  Q_cusec * 0.0283168.

(** [fps_to_mps]: velocity from ft/s to m/s. *)
Definition fps_to_mps (v_fps : R) : R :=
  v_fps * 0.3048.

(** [hydraulic_power]: theoretical hydraulic power in watts. *)
Definition hydraulic_power (rho g Q_m3s H_m : R) : R :=
  rho * g * Q_m3s * H_m.

(** [actual_power]: electrical output power in watts. *)
Definition actual_power (P_hydraulic_W eta_turbine eta_generator : R) : R :=
  P_hydraulic_W * eta_turbine * eta_generator.

(** [penstock_diameter]: [None] when the velocity is not positive,
    otherwise the diameter given by continuity. *)
Definition penstock_diameter (Q_m3s v_mps : R) : result (option R) :=
  if Py.le v_mps 0 then Return None
  else (q <- Py.div (4 * Q_m3s) (math_pi * v_mps) ;;
        D <- math_sqrt q ;;
        Return (Some D))%py.

(** [suggest_turbine]: turbine type from the net head. *)
Definition suggest_turbine (H : R) : string :=
  if Py.lt 300 H then "Pelton Turbine (High Head)"%string
  else if Py.le 50 H && Py.le H 300 then "Francis Turbine (Medium Head)"%string
  else "Kaplan / Propeller Turbine (Low Head)"%string.

(** The three categories of the recommendation, as the labels returned. *)
Definition Pelton : string := "Pelton Turbine (High Head)".
Definition Francis : string := "Francis Turbine (Medium Head)".
Definition Kaplan_Propeller : string := "Kaplan / Propeller Turbine (Low Head)".

(** ** The Streamlit script *)

(** Values read from the sidebar widgets (lines 46-52).  The two sliders
    return integers; the script divides them by 100. *)
Record inputs : Type := Inputs {
  Q_cusec : R;
  v_fps : R;
  H_m : R;
  turbine_slider : Z;
  generator_slider : Z
}.

Definition eta_turbine (i : inputs) : R := IZR (turbine_slider i) / 100.
Definition eta_generator (i : inputs) : R := IZR (generator_slider i) / 100.

(** The bounds the widgets enforce: [min_value] of the three number inputs
    and the range of the two sliders. *)
Definition widget_bounds (i : inputs) : Prop :=
  0 <= Q_cusec i /\ 0.1 <= v_fps i /\ 0 <= H_m i /\
  (1 <= turbine_slider i <= 100)%Z /\ (1 <= generator_slider i <= 100)%Z.

(** The values computed by lines 54-64. *)
Record computed : Type := Computed {
  Q_m3s : R;
  v_mps : R;
  rho : R;
  g : R;
  P_hydraulic_W : R;
  P_actual_W : R;
  D_penstock : option R
}.

(** Lines 54-64: unit conversion, powers, penstock diameter. *)
Definition evaluate (i : inputs) : result computed :=
  let Q_m3s := cusec_to_m3s (Q_cusec i) in
  let v_mps := fps_to_mps (v_fps i) in
  let rho := 1000 in
  let g := 9.81 in
  let P_hydraulic_W := hydraulic_power rho g Q_m3s (H_m i) in
  let P_actual_W := actual_power P_hydraulic_W (eta_turbine i) (eta_generator i) in
  (D_penstock <- penstock_diameter Q_m3s v_mps ;;
   Return (Computed Q_m3s v_mps rho g P_hydraulic_W P_actual_W D_penstock))%py.

(** An f-string: literal pieces and numbers formatted with a fixed number
    of decimals ([{x:.3f}] is [Fixed 3 x]). *)
Inductive piece : Type :=
| Lit (s : string)
| Fixed (decimals : nat) (x : R).

Definition fstring : Type := list piece.

(** Where an element is placed: the page itself or one of the two columns. *)
Inductive container : Set := Page | Col1 | Col2.

(** The elements the results part of the script writes. *)
Inductive element : Type :=
| st_subheader (body : string)
| st_metric (label : string) (value : fstring)
| st_caption (body : string)
| st_markdown (body : string)
| st_write (body : fstring)
| st_success (body : fstring)
| st_error (body : string)
| st_info (body : string).

Definition page : Type := list (container * element).

(** The penstock part of the display, lines 83-86: [if D_penstock:] tests
    the truth value of the object; only a float reaches the format of the
    success message, [None] being false. *)
Definition show_penstock (c : computed) : element :=
  match D_penstock c with
  | Some D =>
      if truthy (Some D) then
        st_success [Lit "Recommended Diameter ≈ "; Fixed 3 D;
                    Lit " m (for velocity "; Fixed 2 (v_mps c); Lit " m/s)"]
      else
        st_error "Invalid velocity selected."
  | None =>
      st_error "Invalid velocity selected."
  end.

(** Lines 66-90: the results section written from the computed values. *)
Definition render (i : inputs) (c : computed) : page :=
  [ (Page, st_subheader "Results");
    (Col1, st_metric "Hydraulic Power (theoretical)"
                     [Fixed 3 (P_hydraulic_W c / 1000); Lit " kW"]);
    (Col1, st_caption "P = ρ g Q H");
    (Col2, st_metric "Electrical Output Power"
                     [Fixed 3 (P_actual_W c / 1000); Lit " kW"]);
    (Col2, st_caption "P_out = P × ηₜ × ηg");
    (Page, st_markdown "### ⚡ Electrical Power in MW");
    (Page, st_write [Lit "- "; Fixed 6 (P_actual_W c / 1000000); Lit " MW"]);
    (Page, st_markdown "### 🚰 Penstock Pipe Diameter");
    (Page, show_penstock c);
    (Page, st_markdown "### 🌀 Suggested Turbine Type");
    (Page, st_info (suggest_turbine (H_m i))) ].

(** Lines 54-90 of the script: an exception raised while evaluating leaves
    the results section unwritten. *)
Definition script (i : inputs) : result page :=
  (c <- evaluate i ;; Return (render i c))%py.

(** End-to-end scenario 1: the default values of the five widgets. *)
Definition scenario1 : inputs := Inputs 100 6 20 85 90.

(** The elements that carry results other than the penstock diameter. *)
Definition other_results (i : inputs) (c : computed) : page :=
  [ (Col1, st_metric "Hydraulic Power (theoretical)"
                     [Fixed 3 (P_hydraulic_W c / 1000); Lit " kW"]);
    (Col2, st_metric "Electrical Output Power"
                     [Fixed 3 (P_actual_W c / 1000); Lit " kW"]);
    (Page, st_write [Lit "- "; Fixed 6 (P_actual_W c / 1000000); Lit " MW"]);
    (Page, st_info (suggest_turbine (H_m i))) ].

(** The elements that report on the penstock: the success and the error box. *)
Definition is_status (e : element) : bool :=
  match e with
  | st_success _ | st_error _ => true
  | _ => false
  end.

(** ** The program on binary64 floats

    The same functions with Python's [float] embedded as IEEE 754 binary64,
    through the bit-level specification [SpecFloat] of the Standard Library
    (53 bits of precision, round to nearest even, signed zeros, infinities
    and NaN).  A binary64 value is a [spec_float] accepted by
    [valid_binary]. *)

Module F64.

Local Open Scope Z_scope.

Definition prec : Z := 53.
Definition emax : Z := 1024.

Definition float : Type := spec_float.

(** [is_float x]: [x] is a value of the binary64 format. *)
Definition is_float (x : float) : Prop := valid_binary prec emax x = true.

(** The float a Python [int] converts to; exact up to 2^53 in magnitude. *)
Definition of_int (n : Z) : float := binary_normalize prec emax n 0 false.

(** The arithmetic of the format: product, quotient and square root, each
    correctly rounded. *)
Definition mul (x y : float) : float := SFmul prec emax x y.
Definition fdiv (x y : float) : float := SFdiv prec emax x y.
Definition sqrt (x : float) : float := SFsqrt prec emax x.

(** The float denoted by the decimal literal [m / 10^k], for [m] below 2^53
    and [k] at most 22: both integers are floats, and their correctly
    rounded quotient is the float nearest to the decimal. *)
Definition dec (m : Z) (k : nat) : float :=
  fdiv (of_int m) (of_int (10 ^ Z.of_nat k)).

Definition infinity : float := S754_infinity false.

(** [x <= y], [x < y] and [x == y] on floats; each is false when an
    operand is NaN. *)
Definition le (x y : float) : bool := SFleb x y.
Definition lt (x y : float) : bool := SFltb x y.
Definition eq (x y : float) : bool := SFeqb x y.

(** [x / y] on floats: a zero divisor of either sign raises. *)
Definition div (x y : float) : result float :=
  if eq y (of_int 0) then Raise ZeroDivisionError
  else Return (fdiv x y).

(** [a / b] on two ints that are floats, with [b] non-zero. *)
Definition int_div (a b : Z) : float := fdiv (of_int a) (of_int b).

(** [math.sqrt(x)]: a negative argument, minus infinity included, raises;
    NaN and the two zeros are returned unchanged. *)
Definition math_sqrt (x : float) : result float :=
  if lt x (of_int 0) then Raise ValueError else Return (sqrt x).

(** [math.pi], the float 3.141592653589793. *)
Definition math_pi : float := dec 3141592653589793 15.

(** [cusec_to_m3s], with the literal 0.0283168. *)
Definition cusec_to_m3s (Q_cusec : float) : float :=
  mul Q_cusec (dec 283168 7).

(** [fps_to_mps], with the literal 0.3048. *)
Definition fps_to_mps (v_fps : float) : float :=
  mul v_fps (dec 3048 4).

(** [hydraulic_power]: the product is taken from left to right. *)
Definition hydraulic_power (rho g Q_m3s H_m : float) : float :=
  mul (mul (mul rho g) Q_m3s) H_m.

(** [actual_power]: the product is taken from left to right. *)
Definition actual_power (P_hydraulic_W eta_turbine eta_generator : float) : float :=
  mul (mul P_hydraulic_W eta_turbine) eta_generator.

(** [penstock_diameter]: the guard, then [4 * Q_m3s], [math.pi * v_mps],
    their quotient and its square root. *)
Definition penstock_diameter (Q_m3s v_mps : float) : result (option float) :=
  if le v_mps (of_int 0) then Return None
  else (q <- div (mul (of_int 4) Q_m3s) (mul math_pi v_mps) ;;
        D <- math_sqrt q ;;
        Return (Some D))%py.

(** [suggest_turbine]. *)
Definition suggest_turbine (H : float) : string :=
  if lt (of_int 300) H then "Pelton Turbine (High Head)"%string
  else if le (of_int 50) H && le H (of_int 300)
       then "Francis Turbine (Medium Head)"%string
       else "Kaplan / Propeller Turbine (Low Head)"%string.

(** Values read from the sidebar widgets (lines 46-52). *)
Record inputs : Type := Inputs {
  Q_cusec : float;
  v_fps : float;
  H_m : float;
  turbine_slider : Z;
  generator_slider : Z
}.

(** [st.slider(...) / 100]. *)
Definition eta_turbine (i : inputs) : float := int_div (turbine_slider i) 100.
Definition eta_generator (i : inputs) : float := int_div (generator_slider i) 100.

(** The values computed by lines 54-64. *)
Record computed : Type := Computed {
  Q_m3s : float;
  v_mps : float;
  rho : float;
  g : float;
  P_hydraulic_W : float;
  P_actual_W : float;
  D_penstock : option float
}.

(** Lines 54-64: unit conversion, powers, penstock diameter. *)
Definition evaluate (i : inputs) : result computed :=
  let Q_m3s := cusec_to_m3s (Q_cusec i) in
  let v_mps := fps_to_mps (v_fps i) in
  let rho := of_int 1000 in
  let g := dec 981 2 in
  let P_hydraulic_W := hydraulic_power rho g Q_m3s (H_m i) in
  let P_actual_W := actual_power P_hydraulic_W (eta_turbine i) (eta_generator i) in
  (D_penstock <- penstock_diameter Q_m3s v_mps ;;
   Return (Computed Q_m3s v_mps rho g P_hydraulic_W P_actual_W D_penstock))%py.

(** End-to-end scenario 1: the default values of the five widgets. *)
Definition scenario1 : inputs := Inputs (of_int 100) (of_int 6) (of_int 20) 85 90.

(** [between lo x hi]: [lo <= x <= hi]. *)
Definition between (lo x hi : float) : bool := le lo x && le x hi.


(** [not_negative x]: [x] is NaN, a zero of either sign, or has a clear
    sign bit. *)
Definition not_negative (x : float) : Prop :=
  match x with
  | S754_nan | S754_zero _ => True
  | S754_infinity s | S754_finite s _ _ => s = false
  end.

(** [is_positive x]: [x] is a positive number or plus infinity. *)
Definition is_positive (x : float) : Prop :=
  match x with
  | S754_infinity false | S754_finite false _ _ => True
  | _ => False
  end.

(** *** Quantities used to reason about rounding *)

(** [shifted m0 k mrs]: the record [mrs] is what [k] one-bit right shifts
    leave of [m0]: the quotient by [2^k], and clear round and sticky bits
    when the division is exact. *)
Definition shifted (m0 k : Z) (mrs : shr_record) : Prop :=
  shr_m mrs = m0 / 2 ^ k /\
  (m0 mod 2 ^ k = 0 -> shr_r mrs = false /\ shr_s mrs = false).

(** The number of bits [shr_fexp] shifts [m * 2^e] by. *)
Definition shift_of (m e : Z) : Z :=
  Z.max 0 (fexp prec emax (Zdigits2 m + e) - e).

(** The float built from a rounded mantissa and its exponent. *)
Definition rounded (s : bool) (m3 e3 : Z) : float :=
  match m3 with
  | Z0 => S754_zero s
  | Zpos p => if e3 <=? emax - prec then S754_finite s p e3 else S754_infinity s
  | Zneg _ => S754_nan
  end.

(** [canonical m e]: [e] is the exponent the format gives a number with the
    digits of [m]. *)
Definition canonical (m e : Z) : Prop :=
  Z.max (Zdigits2 m + e - 53) (-1074) = e.

End F64.

(** ** Basic facts about the primitives *)

Lemma float_le_true (x y : R) : x <= y -> Py.le x y = true.
Proof. intros H. unfold Py.le. destruct (Rle_dec x y); [reflexivity | contradiction]. Qed.

Lemma float_le_false (x y : R) : y < x -> Py.le x y = false.
Proof. intros H. unfold Py.le. destruct (Rle_dec x y); [lra | reflexivity]. Qed.

Lemma float_lt_true (x y : R) : x < y -> Py.lt x y = true.
Proof. intros H. unfold Py.lt. destruct (Rlt_dec x y); [reflexivity | contradiction]. Qed.

Lemma float_lt_false (x y : R) : y <= x -> Py.lt x y = false.
Proof. intros H. unfold Py.lt. destruct (Rlt_dec x y); [lra | reflexivity]. Qed.

Lemma float_eq_true (x y : R) : x = y -> Py.eq x y = true.
Proof. intros H. unfold Py.eq. destruct (Req_dec_T x y); [reflexivity | contradiction]. Qed.

Lemma float_eq_false (x y : R) : x <> y -> Py.eq x y = false.
Proof. intros H. unfold Py.eq. destruct (Req_dec_T x y); [contradiction | reflexivity]. Qed.

(** C1: [suggest_turbine] is a total three-way classification of the net
    head.  A head above 300 gives the Pelton label, a head in [50, 300]
    gives the Francis label, every other head (negative ones included)
    gives the Kaplan/Propeller label; the three labels are pairwise
    distinct, so each head has exactly one category.  At the boundaries:
    300 is Francis, 300.0001 is Pelton, 50 is Francis, 49.999 is
    Kaplan/Propeller. *)
Theorem suggest_turbine_classification :
  (forall H : R,
      (suggest_turbine H = Pelton <-> H > 300) /\
      (suggest_turbine H = Francis <-> 50 <= H <= 300) /\
      (suggest_turbine H = Kaplan_Propeller <-> H < 50) /\
      (H < 0 -> suggest_turbine H = Kaplan_Propeller)) /\
  (Pelton <> Francis /\ Francis <> Kaplan_Propeller /\ Pelton <> Kaplan_Propeller) /\
  suggest_turbine 300 = Francis /\
  suggest_turbine 300.0001 = Pelton /\
  suggest_turbine 50 = Francis /\
  suggest_turbine 49.999 = Kaplan_Propeller.
Proof.
  assert (D : Pelton <> Francis /\ Francis <> Kaplan_Propeller
              /\ Pelton <> Kaplan_Propeller)
    by (repeat split; discriminate).
  assert (G : forall H : R,
      (suggest_turbine H = Pelton <-> H > 300) /\
      (suggest_turbine H = Francis <-> 50 <= H <= 300) /\
      (suggest_turbine H = Kaplan_Propeller <-> H < 50)).
  { intros H. unfold suggest_turbine.
    destruct (Rlt_dec 300 H) as [Hhi | Hhi].
    - rewrite (float_lt_true _ _ Hhi).
      repeat split; intros; try lra; try discriminate; reflexivity.
    - rewrite (float_lt_false 300 H) by lra.
      destruct (Rle_dec 50 H) as [Hlo | Hlo].
      + rewrite (float_le_true 50 H Hlo), (float_le_true H 300) by lra. simpl.
        repeat split; intros; try lra; try discriminate; reflexivity.
      + rewrite (float_le_false 50 H) by lra. simpl.
        repeat split; intros; try lra; try discriminate; reflexivity. }
  split; [| split; [exact D |]].
  - intros H. destruct (G H) as (G1 & G2 & G3).
    split; [exact G1 | split; [exact G2 | split; [exact G3 |]]].
    intros Hneg. apply G3. lra.
  - destruct (G 300) as (_ & F300 & _).
    destruct (G 300.0001) as (P3 & _ & _).
    destruct (G 50) as (_ & F50 & _).
    destruct (G 49.999) as (_ & _ & K49).
    repeat split; [apply F300 | apply P3 | apply F50 | apply K49]; lra.
Qed.

Lemma suggest_turbine_classification_witness :
  suggest_turbine (-5) = Kaplan_Propeller.
Proof.
  destruct suggest_turbine_classification as (G & _).
  destruct (G (-5)) as (_ & _ & _ & N). apply N. lra.
Defined.

(** C8: the unit converters are exact linear scalings: [cusec_to_m3s]
    multiplies by 0.0283168 and [fps_to_mps] by 0.3048, for every input,
    with no clamping (negative, zero and positive velocities alike). *)
Theorem converters_linear :
  (forall cusec : R, cusec_to_m3s cusec = cusec * 0.0283168) /\
  (forall ftPerSec : R, fps_to_mps ftPerSec = ftPerSec * 0.3048).
Proof.
  split; intros; reflexivity.
Qed.

(** ** [penstock_diameter] *)

Lemma continuity_ratio_nonneg (Q v : R) :
  0 < v -> 0 <= Q -> 0 <= 4 * Q / (math_pi * v).
Proof.
  intros Hv HQ. unfold math_pi.
  apply Rmult_le_pos; [lra |].
  apply Rlt_le, Rinv_0_lt_compat, Rmult_lt_0_compat; [apply PI_RGT_0 | exact Hv].
Qed.

Lemma continuity_ratio_pos (Q v : R) :
  0 < v -> 0 < Q -> 0 < 4 * Q / (math_pi * v).
Proof.
  intros Hv HQ. unfold math_pi.
  apply Rmult_lt_0_compat; [lra |].
  apply Rinv_0_lt_compat, Rmult_lt_0_compat; [apply PI_RGT_0 | exact Hv].
Qed.

Lemma continuity_ratio_neg (Q v : R) :
  0 < v -> Q < 0 -> 4 * Q / (math_pi * v) < 0.
Proof.
  intros Hv HQ.
  pose proof (continuity_ratio_pos (- Q) v Hv ltac:(lra)) as Hp.
  replace (4 * Q / (math_pi * v)) with (- (4 * - Q / (math_pi * v))).
  - lra.
  - unfold Rdiv. ring.
Qed.

Lemma penstock_diameter_guard (Q v : R) :
  v <= 0 -> penstock_diameter Q v = Return None.
Proof.
  intros Hv. unfold penstock_diameter. now rewrite float_le_true.
Qed.

Lemma penstock_diameter_divides (Q v : R) :
  0 < v -> penstock_diameter Q v = (D <- math_sqrt (4 * Q / (math_pi * v)) ;; Return (Some D))%py.
Proof.
  intros Hv. unfold penstock_diameter, Py.div.
  rewrite float_le_false by exact Hv.
  rewrite float_eq_false; [reflexivity |].
  pose proof PI_RGT_0. unfold math_pi.
  apply Rgt_not_eq, Rmult_lt_0_compat; assumption.
Qed.

Lemma penstock_diameter_value (Q v : R) :
  0 < v -> 0 <= Q ->
  penstock_diameter Q v = Return (Some (sqrt (4 * Q / (math_pi * v)))).
Proof.
  intros Hv HQ. rewrite penstock_diameter_divides by exact Hv.
  unfold math_sqrt. rewrite float_lt_false; [reflexivity |].
  now apply continuity_ratio_nonneg.
Qed.

Lemma penstock_diameter_domain_error (Q v : R) :
  0 < v -> Q < 0 -> penstock_diameter Q v = Raise ValueError.
Proof.
  intros Hv HQ. rewrite penstock_diameter_divides by exact Hv.
  unfold math_sqrt. rewrite float_lt_true; [reflexivity |].
  now apply continuity_ratio_neg.
Qed.

(** ** Exceptions *)

Lemma evaluate_returns (i : inputs) :
  0 <= Q_cusec i ->
  exists D : option R,
    penstock_diameter (cusec_to_m3s (Q_cusec i)) (fps_to_mps (v_fps i)) = Return D /\
    evaluate i =
      Return (Computed (cusec_to_m3s (Q_cusec i)) (fps_to_mps (v_fps i)) 1000 9.81
                (hydraulic_power 1000 9.81 (cusec_to_m3s (Q_cusec i)) (H_m i))
                (actual_power
                   (hydraulic_power 1000 9.81 (cusec_to_m3s (Q_cusec i)) (H_m i))
                   (eta_turbine i) (eta_generator i))
                D).
Proof.
  intros HQ.
  assert (HQ' : 0 <= cusec_to_m3s (Q_cusec i)) by (unfold cusec_to_m3s; lra).
  unfold evaluate.
  destruct (Rle_dec (fps_to_mps (v_fps i)) 0) as [Hv | Hv].
  - exists None. rewrite penstock_diameter_guard by exact Hv. split; reflexivity.
  - eexists. rewrite penstock_diameter_value by lra. split; reflexivity.
Qed.

(** C4, the claim as stated fails: with a positive velocity and a negative
    discharge, [math.sqrt] receives a negative number and
    [penstock_diameter] raises [ValueError]. *)
Lemma penstock_diameter_raises :
  penstock_diameter (-1) 1 = Raise ValueError /\
  ~ (forall Q_m3s v_mps : R, exists r, penstock_diameter Q_m3s v_mps = Return r).
Proof.
  assert (E : penstock_diameter (-1) 1 = Raise ValueError)
    by (apply penstock_diameter_domain_error; lra).
  split; [exact E |].
  intros T. destruct (T (-1) 1) as [r Hr]. rewrite E in Hr. discriminate.
Qed.

(** C4, amended: on a non-negative discharge [penstock_diameter] raises no
    exception, whatever the velocity: it returns [None] when
    [v_mps <= 0] and a float otherwise; and the pipeline built from the six
    core operations (conversion, powers, diameter, turbine suggestion) runs
    to completion on every input whose discharge is non-negative. *)
Theorem core_raises_nothing_on_nonneg_discharge :
  (forall Q_m3s v_mps : R, 0 <= Q_m3s ->
      (v_mps <= 0 -> penstock_diameter Q_m3s v_mps = Return None) /\
      (0 < v_mps -> exists D : R, penstock_diameter Q_m3s v_mps = Return (Some D))) /\
  (forall i : inputs, 0 <= Q_cusec i ->
      exists c : computed, evaluate i = Return c /\ script i = Return (render i c)).
Proof.
  split.
  - intros Q v HQ. split.
    + apply penstock_diameter_guard.
    + intros Hv. eexists. now apply penstock_diameter_value.
  - intros i HQ. destruct (evaluate_returns i HQ) as (D & _ & E).
    eexists. split; [exact E |]. unfold script. rewrite E. reflexivity.
Qed.

Lemma core_raises_nothing_on_nonneg_discharge_witness :
  (penstock_diameter 2 0 = Return None /\
   exists D : R, penstock_diameter 2 1 = Return (Some D)) /\
  exists c : computed,
    evaluate (Inputs 100 6 20 85 90) = Return c /\
    script (Inputs 100 6 20 85 90) = Return (render (Inputs 100 6 20 85 90) c).
Proof.
  split.
  - destruct (proj1 core_raises_nothing_on_nonneg_discharge 2 0) as [N _]; [lra |].
    destruct (proj1 core_raises_nothing_on_nonneg_discharge 2 1) as [_ P]; [lra |].
    split; [apply N | apply P]; lra.
  - apply (proj2 core_raises_nothing_on_nonneg_discharge (Inputs 100 6 20 85 90)).
    simpl. lra.
Defined.

(** ** The penstock display *)

Lemma penstock_diameter_zero_discharge (v : R) :
  0 < v -> penstock_diameter 0 v = Return (Some 0).
Proof.
  intros Hv. rewrite penstock_diameter_value by lra.
  replace (4 * 0 / (math_pi * v)) with 0 by (unfold Rdiv; ring).
  now rewrite sqrt_0.
Qed.

Lemma show_penstock_error (c : computed) :
  show_penstock c = st_error "Invalid velocity selected." <->
  truthy (D_penstock c) = false.
Proof.
  unfold show_penstock. destruct (D_penstock c) as [D |].
  - destruct (truthy (Some D)); split; intros H; try reflexivity; discriminate.
  - split; reflexivity.
Qed.

Lemma render_no_success (i : inputs) (c : computed) :
  truthy (D_penstock c) = false ->
  forall (k : container) (body : fstring), ~ In (k, st_success body) (render i c).
Proof.
  intros Hf k body. apply show_penstock_error in Hf.
  unfold render. rewrite Hf. cbn [In].
  intros H. repeat (destruct H as [H | H]; [discriminate |]). exact H.
Qed.

(** The powers and the recommendation are written whatever the diameter. *)
Lemma other_results_displayed (i : inputs) (c : computed) :
  incl (other_results i c) (render i c).
Proof.
  intros e H. unfold other_results in H. unfold render. cbn [In] in *.
  destruct H as [<- | [<- | [<- | [<- | []]]]]; tauto.
Qed.

(** C10: the display branch tests the truth value of [D_penstock].  The
    value [0.0], which [penstock_diameter] returns for a zero discharge and
    a positive velocity, has the same truth value as [None]; so with a zero
    discharge and a positive velocity the page shows the error
    "Invalid velocity selected." and no diameter. *)
Theorem zero_discharge_shows_invalid_velocity (i : inputs) :
  Q_cusec i = 0 -> 0 < v_fps i ->
  penstock_diameter (cusec_to_m3s (Q_cusec i)) (fps_to_mps (v_fps i)) = Return (Some 0) /\
  truthy (Some 0) = truthy None /\
  exists c : computed,
    evaluate i = Return c /\
    Q_m3s c = 0 /\ 0 < v_mps c /\ D_penstock c = Some 0 /\
    show_penstock c = st_error "Invalid velocity selected." /\
    script i = Return (render i c) /\
    In (Page, st_error "Invalid velocity selected.") (render i c) /\
    (forall (k : container) (body : fstring), ~ In (k, st_success body) (render i c)).
Proof.
  intros HQ Hv.
  assert (Hq : cusec_to_m3s (Q_cusec i) = 0) by (rewrite HQ; unfold cusec_to_m3s; lra).
  assert (Hvm : 0 < fps_to_mps (v_fps i)) by (unfold fps_to_mps; lra).
  assert (HD : penstock_diameter (cusec_to_m3s (Q_cusec i)) (fps_to_mps (v_fps i))
               = Return (Some 0))
    by (rewrite Hq; now apply penstock_diameter_zero_discharge).
  assert (Ht : truthy (Some 0) = false) by (unfold truthy; now rewrite float_eq_true).
  split; [exact HD |]. split; [exact Ht |].
  eexists. split.
  { unfold evaluate. rewrite HD. cbn [Py.bind]. reflexivity. }
  cbn [Q_m3s v_mps D_penstock].
  split; [exact Hq |]. split; [exact Hvm |]. split; [reflexivity |].
  assert (Hs : forall c : computed, D_penstock c = Some 0 ->
               show_penstock c = st_error "Invalid velocity selected.")
    by (intros c Hc; apply show_penstock_error; now rewrite Hc).
  split; [now apply Hs |]. split.
  { unfold script, evaluate. rewrite HD. reflexivity. }
  split.
  - unfold render. rewrite Hs by reflexivity. cbn [In]. do 8 right. now left.
  - apply render_no_success. exact Ht.
Qed.

Lemma zero_discharge_shows_invalid_velocity_witness :
  exists c : computed,
    evaluate (Inputs 0 3 40 80 95) = Return c /\
    show_penstock c = st_error "Invalid velocity selected.".
Proof.
  destruct (zero_discharge_shows_invalid_velocity (Inputs 0 3 40 80 95))
    as (_ & _ & c & E & _ & _ & _ & S & _).
  - reflexivity.
  - simpl. lra.
  - exists c. split; [exact E | exact S].
Defined.

(** C5 at the input 0 cusec, 6 ft/s, 20 m, 85 and 90 percent, which the
    widgets accept: the velocity is 1.8288 m/s, positive, and the page
    shows the error message in place of the diameter.  The powers and the
    recommendation are displayed. *)
Theorem positive_velocity_error_displayed :
  widget_bounds (Inputs 0 6 20 85 90) /\
  0 < fps_to_mps (v_fps (Inputs 0 6 20 85 90)) /\
  script (Inputs 0 6 20 85 90) =
    Return
      [ (Page, st_subheader "Results");
        (Col1, st_metric "Hydraulic Power (theoretical)" [Fixed 3 0; Lit " kW"]);
        (Col1, st_caption "P = ρ g Q H");
        (Col2, st_metric "Electrical Output Power" [Fixed 3 0; Lit " kW"]);
        (Col2, st_caption "P_out = P × ηₜ × ηg");
        (Page, st_markdown "### ⚡ Electrical Power in MW");
        (Page, st_write [Lit "- "; Fixed 6 0; Lit " MW"]);
        (Page, st_markdown "### 🚰 Penstock Pipe Diameter");
        (Page, st_error "Invalid velocity selected.");
        (Page, st_markdown "### 🌀 Suggested Turbine Type");
        (Page, st_info "Kaplan / Propeller Turbine (Low Head)") ].
Proof.
  split; [| split].
  - unfold widget_bounds. cbn. repeat split; try lra; lia.
  - unfold fps_to_mps. cbn. lra.
  - unfold script, evaluate. cbn [Q_cusec v_fps H_m].
    replace (cusec_to_m3s 0) with 0 by (unfold cusec_to_m3s; lra).
    rewrite penstock_diameter_zero_discharge by (unfold fps_to_mps; lra).
    cbn [Py.bind]. unfold render, show_penstock.
    cbn [P_hydraulic_W P_actual_W D_penstock H_m v_mps].
    unfold truthy. rewrite float_eq_true by reflexivity. cbn [negb].
    unfold suggest_turbine. rewrite float_lt_false, (float_le_false 50 20) by lra.
    cbn [andb]. unfold actual_power, hydraulic_power.
    repeat f_equal; lra.
Qed.

(** ** Layout of the results section *)

Lemma show_penstock_status (c : computed) : is_status (show_penstock c) = true.
Proof.
  unfold show_penstock. destruct (D_penstock c) as [D |]; [| reflexivity].
  destruct (truthy (Some D)); reflexivity.
Qed.

(** X9: the results section always has eleven elements; exactly one of them
    is a success or error box, the ninth, which reports on the penstock;
    and the other ten depend only on the two powers and the head, not on
    the diameter or the velocity. *)
Theorem render_layout (i : inputs) (c : computed) :
  length (render i c) = 11%nat /\
  nth_error (render i c) 8 = Some (Page, show_penstock c) /\
  length (filter (fun e => is_status (snd e)) (render i c)) = 1%nat /\
  (forall c' : computed,
      P_hydraulic_W c' = P_hydraulic_W c -> P_actual_W c' = P_actual_W c ->
      forall n : nat, n <> 8%nat ->
        nth_error (render i c') n = nth_error (render i c) n).
Proof.
  split; [reflexivity |]. split; [reflexivity |]. split.
  - unfold render. cbn [filter snd is_status].
    rewrite show_penstock_status. reflexivity.
  - intros c' Hh Ha n Hn. unfold render. rewrite Hh, Ha.
    do 9 (destruct n as [| n]; [try reflexivity; contradiction |]).
    reflexivity.
Qed.

Lemma render_layout_witness :
  nth_error (render scenario1 (Computed 0 0 0 0 5 4 None)) 1
  = nth_error (render scenario1 (Computed 1 1 1 1 5 4 (Some 2))) 1.
Proof.
  apply (proj2 (proj2 (proj2
           (render_layout scenario1 (Computed 1 1 1 1 5 4 (Some 2)))))
           (Computed 0 0 0 0 5 4 None)); [reflexivity | reflexivity | lia].
Defined.

(** ** Further properties of [suggest_turbine] *)

Lemma suggest_turbine_cases (H : R) :
  (300 < H /\ suggest_turbine H = Pelton) \/
  (50 <= H <= 300 /\ suggest_turbine H = Francis) \/
  (H < 50 /\ suggest_turbine H = Kaplan_Propeller).
Proof.
  unfold suggest_turbine.
  destruct (Rlt_dec 300 H) as [Hhi | Hhi].
  - left. rewrite float_lt_true by exact Hhi. now split.
  - rewrite float_lt_false by lra.
    destruct (Rle_dec 50 H) as [Hlo | Hlo].
    + right; left. rewrite !float_le_true by lra. split; [lra | reflexivity].
    + right; right. rewrite (float_le_false 50 H) by lra. split; [lra | reflexivity].
Qed.

(** X14: the recommendation is monotone in the head: raising the head never
    moves the suggestion to a lower-head turbine.  If a head gets Pelton so
    does every higher head, if it gets Kaplan/Propeller so does every lower
    head, and between two heads that get Francis every head gets Francis. *)
Theorem suggest_turbine_monotone (H1 H2 : R) :
  H1 <= H2 ->
  (suggest_turbine H1 = Pelton -> suggest_turbine H2 = Pelton) /\
  (suggest_turbine H2 = Kaplan_Propeller -> suggest_turbine H1 = Kaplan_Propeller) /\
  (suggest_turbine H1 = Francis -> suggest_turbine H2 = Francis ->
   forall H : R, H1 <= H <= H2 -> suggest_turbine H = Francis).
Proof.
  intros Hle.
  destruct (suggest_turbine_cases H1) as [[B1 E1] | [[B1 E1] | [B1 E1]]];
    destruct (suggest_turbine_cases H2) as [[B2 E2] | [[B2 E2] | [B2 E2]]];
    rewrite E1, E2; try lra;
    (split; [| split]); try reflexivity; try discriminate; try tauto.
  intros _ _ H [Ha Hb].
  destruct (suggest_turbine_cases H) as [[B E] | [[B E] | [B E]]];
    try lra; exact E.
Qed.

Lemma suggest_turbine_monotone_witness :
  suggest_turbine 400 = Pelton /\ suggest_turbine (-3) = Kaplan_Propeller.
Proof.
  split.
  - apply (proj1 (suggest_turbine_monotone 310 400 ltac:(lra))).
    unfold suggest_turbine. rewrite float_lt_true by lra. reflexivity.
  - apply (proj1 (proj2 (suggest_turbine_monotone (-3) 10 ltac:(lra)))).
    unfold suggest_turbine.
    rewrite float_lt_false, (float_le_false 50 10) by lra. reflexivity.
Defined.

(** ** Properties of the program on binary64 floats *)

Section Binary64.

Import F64.
Local Open Scope Z_scope.

(** *** Digits and shifts *)

(** [digits2_pos] is the binary size of a positive number. *)
Lemma digits2_size (p : positive) : digits2_pos p = Pos.size p.
Proof. induction p; simpl; congruence. Qed.

Lemma digits2_log2 (p : positive) : Zpos (digits2_pos p) = Z.log2 (Zpos p) + 1.
Proof.
  rewrite digits2_size. destruct p; simpl; rewrite ?Pos2Z.inj_succ; lia.
Qed.

Lemma digits2_bounds (p : positive) :
  2 ^ (Zpos (digits2_pos p) - 1) <= Zpos p < 2 ^ Zpos (digits2_pos p).
Proof.
  rewrite digits2_log2. pose proof (Z.log2_spec (Zpos p) ltac:(lia)) as H.
  replace (Z.log2 (Zpos p) + 1 - 1) with (Z.log2 (Zpos p)) by lia.
  unfold Z.succ in H. exact H.
Qed.

Lemma digits2_le (p : positive) (k : Z) :
  0 <= k -> Zpos p < 2 ^ k -> Zpos (digits2_pos p) <= k.
Proof.
  intros Hk H. pose proof (digits2_bounds p) as [B _].
  destruct (Z_le_gt_dec (Zpos (digits2_pos p)) k) as [L | G]; [exact L | exfalso].
  assert (2 ^ k <= 2 ^ (Zpos (digits2_pos p) - 1)) by (apply Z.pow_le_mono_r; lia).
  lia.
Qed.

Lemma digits2_gt (p : positive) (k : Z) :
  0 <= k -> 2 ^ k <= Zpos p -> k < Zpos (digits2_pos p).
Proof.
  intros Hk H. pose proof (digits2_bounds p) as [_ B].
  destruct (Z_lt_le_dec k (Zpos (digits2_pos p))) as [L | G]; [exact L | exfalso].
  assert (2 ^ Zpos (digits2_pos p) <= 2 ^ k) by (apply Z.pow_le_mono_r; lia).
  lia.
Qed.

(** The iterator of [SpecFloat] is plain iteration. *)
Lemma iter_pos_nat {A : Type} (f : A -> A) (n : positive) (x : A) :
  iter_pos f n x = Nat.iter (Pos.to_nat n) f x.
Proof.
  revert x. induction n as [n IH | n IH |]; intros x; simpl iter_pos.
  - rewrite !IH, Pos2Nat.inj_xI.
    replace (S (2 * Pos.to_nat n))%nat with (S (Pos.to_nat n + Pos.to_nat n))%nat by lia.
    rewrite Nat.iter_succ_r, Nat.iter_add. reflexivity.
  - rewrite !IH, Pos2Nat.inj_xO.
    replace (2 * Pos.to_nat n)%nat with (Pos.to_nat n + Pos.to_nat n)%nat by lia.
    rewrite Nat.iter_add. reflexivity.
  - reflexivity.
Qed.

Lemma shr_1_m (mrs : shr_record) :
  0 <= shr_m mrs ->
  shr_m (shr_1 mrs) = shr_m mrs / 2 /\
  shr_r (shr_1 mrs) = Z.odd (shr_m mrs) /\
  shr_s (shr_1 mrs) = shr_r mrs || shr_s mrs.
Proof.
  destruct mrs as [m r s]. simpl. intros Hm.
  destruct m as [| [p | p |] | p]; simpl; try lia; repeat split;
    try reflexivity.
  - rewrite Pos2Z.inj_xI. apply Z.div_unique with 1; lia.
  - rewrite Pos2Z.inj_xO. apply Z.div_unique with 0; lia.
Qed.

Lemma shifted_step (m0 k : Z) (mrs : shr_record) :
  0 <= m0 -> 0 <= k -> shifted m0 k mrs -> shifted m0 (k + 1) (shr_1 mrs).
Proof.
  intros Hm Hk [Hq Hx].
  assert (Hp : 0 < 2 ^ k) by (apply Z.pow_pos_nonneg; lia).
  assert (Hq0 : 0 <= shr_m mrs) by (rewrite Hq; apply Z.div_pos; lia).
  destruct (shr_1_m mrs Hq0) as (E1 & E2 & E3).
  unfold shifted. rewrite Z.pow_add_r, Z.pow_1_r by lia.
  split.
  - rewrite E1, Hq. rewrite Z.div_div by lia. reflexivity.
  - intros Hmod. rewrite E2, E3.
    apply Z.mod_divide in Hmod; [| lia]. destruct Hmod as [q Eq].
    assert (Hk0 : m0 mod 2 ^ k = 0).
    { apply Z.mod_divide; [lia |]. exists (q * 2). lia. }
    destruct (Hx Hk0) as [-> ->].
    assert (Hd : m0 / 2 ^ k = q * 2).
    { replace m0 with (q * 2 * 2 ^ k) by lia. apply Z.div_mul. lia. }
    rewrite Hq, Hd. split; [| reflexivity].
    rewrite Z.odd_mul. simpl. apply andb_false_r.
Qed.

Lemma shifted_iter (m0 : Z) (k : nat) :
  0 <= m0 ->
  shifted m0 (Z.of_nat k) (Nat.iter k shr_1 (Build_shr_record m0 false false)).
Proof.
  intros Hm. induction k as [| k IH].
  - simpl. split; simpl; [now rewrite Z.div_1_r | intros _; now split].
  - rewrite Nat2Z.inj_succ. unfold Z.succ. simpl Nat.iter.
    apply shifted_step; [exact Hm | lia | exact IH].
Qed.

(** [shr_fexp] on an exact mantissa divides it by [2 ^ shift_of]. *)
Lemma shr_fexp_exact (m e : Z) :
  0 <= m ->
  exists mrs : shr_record,
    shr_fexp prec emax m e loc_Exact = (mrs, e + shift_of m e) /\
    shifted m (shift_of m e) mrs.
Proof.
  intros Hm. unfold shr_fexp, shift_of, shr, shr_record_of_loc.
  destruct (fexp prec emax (Zdigits2 m + e) - e) as [| p | p] eqn:En.
  - eexists. split; [rewrite Z.add_0_r; reflexivity |].
    simpl. split; simpl; [now rewrite Z.div_1_r | intros _; now split].
  - eexists. split.
    + rewrite Z.max_r by lia. reflexivity.
    + rewrite Z.max_r by lia. rewrite iter_pos_nat.
      rewrite <- (positive_nat_Z p). apply shifted_iter. exact Hm.
  - eexists. split; [rewrite Z.max_l by lia; rewrite Z.add_0_r; reflexivity |].
    rewrite Z.max_l by lia.
    simpl. split; simpl; [now rewrite Z.div_1_r | intros _; now split].
Qed.

Lemma round_nearest_even_cases (mrs : shr_record) :
  round_nearest_even (shr_m mrs) (loc_of_shr_record mrs) = shr_m mrs \/
  (round_nearest_even (shr_m mrs) (loc_of_shr_record mrs) = shr_m mrs + 1 /\
   ~ (shr_r mrs = false /\ shr_s mrs = false)).
Proof.
  destruct mrs as [m [|] [|]]; simpl; try (now left).
  - right. split; [reflexivity | intros [H _]; discriminate].
  - destruct (Z.even m); [now left |].
    right. split; [reflexivity | intros [H _]; discriminate].
Qed.

(** Rounding an exact product: a first shift, a rounding of the mantissa
    to [m / 2^n] or one more (one more only when bits were lost), and a
    second shift. *)
Lemma binary_round_aux_exact (s : bool) (m : positive) (e : Z) :
  exists m2 : Z,
    let n := shift_of (Zpos m) e in
    let e1 := e + n in
    let n2 := shift_of m2 e1 in
    (m2 = Zpos m / 2 ^ n \/ (m2 = Zpos m / 2 ^ n + 1 /\ Zpos m mod 2 ^ n <> 0)) /\
    binary_round_aux prec emax s (Zpos m) e loc_Exact
    = rounded s (m2 / 2 ^ n2) (e1 + n2).
Proof.
  destruct (shr_fexp_exact (Zpos m) e ltac:(lia)) as (mrs1 & E1 & [Hq1 Hx1]).
  set (n := shift_of (Zpos m) e) in *.
  set (m2 := round_nearest_even (shr_m mrs1) (loc_of_shr_record mrs1)).
  assert (Hn : 0 <= n) by (unfold n, shift_of; lia).
  assert (Hp : 0 < 2 ^ n) by (apply Z.pow_pos_nonneg; lia).
  assert (Hm1 : 0 <= shr_m mrs1) by (rewrite Hq1; apply Z.div_pos; lia).
  assert (Hm2 : m2 = Zpos m / 2 ^ n \/
                (m2 = Zpos m / 2 ^ n + 1 /\ Zpos m mod 2 ^ n <> 0)).
  { destruct (round_nearest_even_cases mrs1) as [E | [E Hne]]; fold m2 in E.
    - left. now rewrite E.
    - right. split; [now rewrite E, Hq1 |]. intros H0. apply Hne, Hx1, H0. }
  assert (Hm2pos : 0 <= m2) by (destruct Hm2 as [-> | [-> _]]; lia).
  destruct (shr_fexp_exact m2 (e + n) Hm2pos) as (mrs2 & E2 & [Hq2 _]).
  exists m2. cbn zeta. fold n. split; [exact Hm2 |].
  unfold binary_round_aux. rewrite E1. fold m2. rewrite E2, Hq2.
  reflexivity.
Qed.

Lemma fexp_64 (x : Z) : fexp prec emax x = Z.max (x - 53) (-1074).
Proof. reflexivity. Qed.

Lemma pow2_pos (k : Z) : 0 <= k -> 0 < 2 ^ k.
Proof. intros. apply Z.pow_pos_nonneg; lia. Qed.

Lemma pow2_add (a b : Z) : 0 <= a -> 0 <= b -> 2 ^ (a + b) = 2 ^ a * 2 ^ b.
Proof. intros. apply Z.pow_add_r; assumption. Qed.

Lemma pow2_le (a b : Z) : 0 <= a <= b -> 2 ^ a <= 2 ^ b.
Proof. intros. apply Z.pow_le_mono_r; lia. Qed.

Lemma pow2_lt_inv (a b : Z) : 0 <= b -> 2 ^ a < 2 ^ b -> a < b.
Proof. intros Hb H. apply (Z.pow_lt_mono_r_iff 2); [lia | exact Hb | exact H]. Qed.

Lemma digits2_unique (p : positive) (k : Z) :
  2 ^ (k - 1) <= Zpos p < 2 ^ k -> Zpos (digits2_pos p) = k.
Proof.
  intros [Hlo Hhi].
  assert (Hk : 1 <= k).
  { destruct (Z_lt_le_dec k 1) as [L | G]; [| exact G]. exfalso.
    destruct (Z_lt_le_dec k 0) as [L0 | G0].
    - rewrite (Z.pow_neg_r 2 k) in Hhi by exact L0. lia.
    - assert (k = 0) by lia. subst k. simpl in Hhi. lia. }
  pose proof (digits2_le p k ltac:(lia) Hhi).
  pose proof (digits2_gt p (k - 1) ltac:(lia) Hlo). lia.
Qed.

Lemma zdigits2_pos (p : positive) : Zdigits2 (Zpos p) = Zpos (digits2_pos p).
Proof. reflexivity. Qed.

(** Rounding a mantissa that keeps at least one bit never gives zero. *)
Lemma binary_round_aux_nonzero (s : bool) (m : positive) (e : Z) :
  -1074 < Zpos (digits2_pos m) + e ->
  binary_round_aux prec emax s (Zpos m) e loc_Exact = S754_infinity s \/
  exists (m3 : positive) (e3 : Z),
    binary_round_aux prec emax s (Zpos m) e loc_Exact = S754_finite s m3 e3.
Proof.
  intros Hd.
  destruct (binary_round_aux_exact s m e) as (m2 & Hm2 & ->).
  cbn zeta in Hm2.
  set (d := Zpos (digits2_pos m)) in *.
  set (n := shift_of (Zpos m) e) in *.
  assert (Hn : 0 <= n <= d - 1).
  { unfold n, shift_of. rewrite zdigits2_pos, fexp_64. fold d. lia. }
  pose proof (digits2_bounds m) as [Blo _]. fold d in Blo.
  assert (H1 : 1 <= Zpos m / 2 ^ n).
  { apply Z.div_le_lower_bound; [apply pow2_pos; lia |].
    pose proof (pow2_le n (d - 1) ltac:(lia)). lia. }
  assert (Hm2pos : 1 <= m2) by (destruct Hm2 as [-> | [-> _]]; lia).
  destruct m2 as [| p2 | p2]; try lia.
  set (e1 := e + n) in *.
  assert (He1 : -1074 <= e1).
  { unfold e1, n, shift_of. rewrite zdigits2_pos, fexp_64. lia. }
  set (n2 := shift_of (Zpos p2) e1).
  set (d2 := Zpos (digits2_pos p2)).
  assert (Hn2 : 0 <= n2 <= d2 - 1).
  { unfold n2, shift_of. rewrite zdigits2_pos, fexp_64. fold d2.
    assert (1 <= d2) by (unfold d2; lia). lia. }
  pose proof (digits2_bounds p2) as [Blo2 _]. fold d2 in Blo2.
  assert (H3 : 1 <= Zpos p2 / 2 ^ n2).
  { apply Z.div_le_lower_bound; [apply pow2_pos; lia |].
    pose proof (pow2_le n2 (d2 - 1) ltac:(lia)). lia. }
  unfold rounded. destruct (Zpos p2 / 2 ^ n2) as [| p3 | p3]; try lia.
  destruct (e1 + n2 <=? emax - prec); [right; eauto | now left].
Qed.

(** When the first shift is by [E1 - e] bits, the rounded result carries
    the value of the rounded mantissa at exponent [E1] and is canonical. *)
Lemma round_core (s : bool) (m : positive) (e : Z) :
  let E1 := Z.max (Zpos (digits2_pos m) + e - 53) (-1074) in
  e <= E1 ->
  exists m2 m3 e3 : Z,
    binary_round_aux prec emax s (Zpos m) e loc_Exact = rounded s m3 e3 /\
    (m2 = Zpos m / 2 ^ (E1 - e) \/
     (m2 = Zpos m / 2 ^ (E1 - e) + 1 /\ Zpos m mod 2 ^ (E1 - e) <> 0)) /\
    0 <= m3 /\ E1 <= e3 /\ m3 * 2 ^ (e3 - E1) = m2 /\
    (0 < m3 -> canonical m3 e3).
Proof.
  intros E1 Hn.
  destruct (binary_round_aux_exact s m e) as (m2 & Hm2 & ->).
  cbn zeta in Hm2.
  set (d := Zpos (digits2_pos m)) in *.
  assert (En : shift_of (Zpos m) e = E1 - e).
  { unfold shift_of. rewrite zdigits2_pos, fexp_64. fold d. unfold E1. lia. }
  rewrite En in *. replace (e + (E1 - e)) with E1 by lia.
  set (n := E1 - e) in *.
  assert (Hn0 : 0 <= n) by (unfold n; lia).
  pose proof (pow2_pos n Hn0) as Hpn.
  pose proof (digits2_bounds m) as [Blo Bhi]. fold d in Blo, Bhi.
  assert (Hd1 : 1 <= d) by (unfold d; lia).
  set (m1 := Zpos m / 2 ^ n) in *.
  set (D := Z.max (d - n) 0).
  assert (HD53 : D <= 53) by (unfold D, n, E1; lia).
  assert (Hm1hi : m1 < 2 ^ D).
  { unfold m1. apply Z.div_lt_upper_bound; [exact Hpn |].
    rewrite <- pow2_add by (unfold D; lia).
    pose proof (pow2_le d (n + D) ltac:(unfold D; lia)). lia. }
  assert (Hm1lo : 1 <= d - n -> 2 ^ (d - n - 1) <= m1).
  { intros Hdn. unfold m1. apply Z.div_le_lower_bound; [exact Hpn |].
    rewrite <- pow2_add by lia. replace (n + (d - n - 1)) with (d - 1) by lia.
    exact Blo. }
  assert (Hm1pos : 0 <= m1) by (unfold m1; apply Z.div_pos; lia).
  assert (Hm2b : m1 <= m2 <= 2 ^ D) by (destruct Hm2 as [-> | [-> _]]; lia).
  assert (HE1 : -1074 <= E1) by (unfold E1; lia).
  exists m2.
  destruct m2 as [| p2 | p2]; try lia.
  - (* the rounded mantissa is zero *)
    exists 0, E1. rewrite Z.div_0_l by (apply Z.pow_nonzero; unfold shift_of; lia).
    unfold rounded. repeat split; try lia; try exact Hm2.
  - set (d2 := Zpos (digits2_pos p2)).
    pose proof (digits2_bounds p2) as [B2lo B2hi]. fold d2 in B2lo, B2hi.
    destruct (Z_lt_le_dec (Zpos p2) (2 ^ D)) as [Hlt | Hge].
    + (* no carry: the digits are those of the truncated mantissa *)
      assert (HDpos : 1 <= d - n).
      { destruct (Z_lt_le_dec (d - n) 1) as [L | G]; [exfalso | exact G].
        unfold D in Hlt. rewrite Z.max_r in Hlt by lia. simpl in Hlt. lia. }
      assert (Ed2 : d2 = d - n).
      { apply digits2_unique. unfold D in Hlt. rewrite Z.max_l in Hlt by lia.
        specialize (Hm1lo HDpos). lia. }
      assert (En2 : shift_of (Zpos p2) E1 = 0).
      { unfold shift_of. rewrite zdigits2_pos, fexp_64. fold d2.
        unfold n, E1 in *. lia. }
      rewrite En2. exists (Zpos p2), E1.
      rewrite Z.pow_0_r, Z.div_1_r, Z.add_0_r.
      repeat split; try lia; try exact Hm2.
      * rewrite Z.sub_diag. simpl. lia.
      * intros _. unfold canonical. rewrite zdigits2_pos. fold d2.
        unfold n, E1 in *. lia.
    + (* carry: the rounded mantissa is a power of two *)
      assert (E2 : Zpos p2 = 2 ^ D) by lia.
      assert (HD0 : 0 <= D) by (unfold D; lia).
      assert (Ed2 : d2 = D + 1).
      { apply digits2_unique. replace (D + 1 - 1) with D by lia.
        rewrite E2. split; [lia |].
        apply Z.pow_lt_mono_r; lia. }
      destruct (Z_lt_le_dec D 53) as [Hsub | Hnorm].
      * (* below 53 digits: the exponent is the least one, no second shift *)
        assert (EE1 : E1 = -1074) by (unfold D, n, E1 in *; lia).
        assert (En2 : shift_of (Zpos p2) E1 = 0).
        { unfold shift_of. rewrite zdigits2_pos, fexp_64. fold d2. lia. }
        rewrite En2. exists (Zpos p2), E1.
        rewrite Z.pow_0_r, Z.div_1_r, Z.add_0_r.
        repeat split; try lia; try exact Hm2.
        -- rewrite Z.sub_diag. simpl. lia.
        -- intros _. unfold canonical. rewrite zdigits2_pos. fold d2. lia.
      * (* 54 digits: one more shift gives 2^52 *)
        assert (ED : D = 53) by lia.
        assert (En2 : shift_of (Zpos p2) E1 = 1).
        { unfold shift_of. rewrite zdigits2_pos, fexp_64. fold d2. lia. }
        rewrite En2, E2, ED. exists (2 ^ 52), (E1 + 1).
        replace (2 ^ 53 / 2 ^ 1) with (2 ^ 52) by reflexivity.
        repeat split; try lia.
        -- rewrite <- ED, <- E2. exact Hm2.
        -- replace (E1 + 1 - E1) with 1 by lia. reflexivity.
        -- intros _. unfold canonical.
           replace (Zdigits2 (2 ^ 52)) with 53 by reflexivity. lia.
Qed.

Lemma bounded_canonical (m : positive) (e : Z) :
  bounded prec emax m e = true -> canonical (Zpos m) e /\ e <= 971.
Proof.
  unfold bounded, canonical_mantissa. rewrite andb_true_iff, Z.eqb_eq, Z.leb_le.
  rewrite fexp_64. intros [H1 H2]. split; [exact H1 | exact H2].
Qed.

Lemma canonical_bounded (m : positive) (e : Z) :
  canonical (Zpos m) e -> e <= 971 -> bounded prec emax m e = true.
Proof.
  intros H1 H2. unfold bounded, canonical_mantissa.
  rewrite andb_true_iff, Z.eqb_eq, Z.leb_le, fexp_64. split; [exact H1 | exact H2].
Qed.

Lemma canonical_digits (m : positive) (e : Z) :
  canonical (Zpos m) e ->
  -1074 <= e /\ Zpos (digits2_pos m) <= 53 /\
  (Zpos (digits2_pos m) = 53 \/ e = -1074).
Proof. unfold canonical. rewrite zdigits2_pos. lia. Qed.

(** Rounding a value that does not exceed a number of the format gives a
    number of the format that does not exceed it either. *)
Lemma round_le (s : bool) (mx m : positive) (ex e : Z) :
  canonical (Zpos mx) ex ->
  e <= ex ->
  Zpos m <= Zpos mx * 2 ^ (ex - e) ->
  e <= Z.max (Zpos (digits2_pos m) + e - 53) (-1074) ->
  exists m3 e3 : Z,
    binary_round_aux prec emax s (Zpos m) e loc_Exact = rounded s m3 e3 /\
    0 <= m3 /\
    (0 < m3 -> canonical m3 e3 /\ e3 <= ex /\ m3 <= Zpos mx * 2 ^ (ex - e3)).
Proof.
  intros Cx He Hv Hn.
  destruct (round_core s m e Hn) as (m2 & m3 & e3 & Er & Hm2 & Hm3 & He3 & Hval & Hcan).
  set (d := Zpos (digits2_pos m)) in *.
  set (E1 := Z.max (d + e - 53) (-1074)) in *.
  set (dx := Zpos (digits2_pos mx)).
  pose proof (digits2_bounds m) as [Blo Bhi]. fold d in Blo, Bhi.
  pose proof (digits2_bounds mx) as [Bxlo Bxhi]. fold dx in Bxlo, Bxhi.
  assert (Hdx : 1 <= dx) by (unfold dx; lia).
  assert (Hd : 1 <= d) by (unfold d; lia).
  pose proof (pow2_pos (ex - e) ltac:(lia)) as Hpe.
  (* the leading bit of the value is not above that of the bound *)
  assert (Hde : d + e <= dx + ex).
  { assert (2 ^ (d - 1) < 2 ^ (dx + (ex - e))).
    { rewrite pow2_add by lia.
      assert (Zpos mx * 2 ^ (ex - e) < 2 ^ dx * 2 ^ (ex - e))
        by (apply Z.mul_lt_mono_pos_r; lia).
      lia. }
    apply pow2_lt_inv in H; lia. }
  assert (HE1 : E1 <= ex).
  { unfold canonical in Cx. rewrite zdigits2_pos in Cx. fold dx in Cx.
    unfold E1. lia. }
  set (n := E1 - e) in *.
  assert (Hn0 : 0 <= n) by (unfold n; lia).
  pose proof (pow2_pos n Hn0) as Hpn.
  pose proof (pow2_pos (ex - E1) ltac:(lia)) as HpK.
  set (K := Zpos mx * 2 ^ (ex - E1)).
  assert (HK : Zpos m <= K * 2 ^ n).
  { unfold K. rewrite <- Z.mul_assoc, <- pow2_add by lia.
    replace (ex - E1 + n) with (ex - e) by (unfold n; lia). exact Hv. }
  assert (Hm2K : m2 <= K).
  { destruct Hm2 as [-> | [-> Hne]].
    - apply Z.div_le_upper_bound; lia.
    - assert (Zpos m <> K * 2 ^ n).
      { intros E. apply Hne. rewrite E. apply Z.mod_mul. lia. }
      assert (Zpos m / 2 ^ n < K) by (apply Z.div_lt_upper_bound; lia).
      lia. }
  exists m3, e3. split; [exact Er |]. split; [exact Hm3 |].
  intros Hpos. specialize (Hcan Hpos).
  destruct m3 as [| p3 | p3]; try lia.
  set (d3 := Zpos (digits2_pos p3)).
  pose proof (digits2_bounds p3) as [B3lo B3hi]. fold d3 in B3lo, B3hi.
  assert (Hd3 : 1 <= d3) by (unfold d3; lia).
  pose proof (pow2_pos (e3 - E1) ltac:(lia)) as Hp3.
  assert (Hle : e3 <= ex).
  { destruct (Z_le_gt_dec e3 ex) as [L | G]; [exact L | exfalso].
    assert (HH : Zpos p3 * 2 ^ (e3 - ex) <= Zpos mx).
    { apply Z.mul_le_mono_pos_r with (2 ^ (ex - E1)); [lia |].
      rewrite <- Z.mul_assoc, <- pow2_add by lia.
      replace (e3 - ex + (ex - E1)) with (e3 - E1) by lia. fold K. lia. }
    assert (2 ^ (d3 - 1 + (e3 - ex)) < 2 ^ dx).
    { rewrite pow2_add by lia.
      pose proof (pow2_pos (e3 - ex) ltac:(lia)).
      assert (2 ^ (d3 - 1) * 2 ^ (e3 - ex) <= Zpos p3 * 2 ^ (e3 - ex))
        by (apply Z.mul_le_mono_pos_r; lia).
      lia. }
    apply pow2_lt_inv in H; [| lia].
    unfold canonical in Cx, Hcan. rewrite zdigits2_pos in Cx, Hcan.
    fold dx in Cx. fold d3 in Hcan. lia. }
  split; [exact Hcan |]. split; [exact Hle |].
  apply Z.mul_le_mono_pos_r with (2 ^ (e3 - E1)); [lia |].
  rewrite <- Z.mul_assoc, <- pow2_add by lia.
  replace (ex - e3 + (e3 - E1)) with (ex - E1) by lia. fold K. lia.
Qed.

Lemma digits2_mul (a b : positive) :
  Zpos (digits2_pos a) + Zpos (digits2_pos b) - 1 <= Zpos (digits2_pos (a * b)).
Proof.
  pose proof (digits2_bounds a) as [Ha _]. pose proof (digits2_bounds b) as [Hb _].
  set (da := Zpos (digits2_pos a)) in *. set (db := Zpos (digits2_pos b)) in *.
  assert (1 <= da) by (unfold da; lia). assert (1 <= db) by (unfold db; lia).
  assert (H2 : 2 ^ (da - 1 + (db - 1)) <= Zpos (a * b)).
  { rewrite pow2_add, Pos2Z.inj_mul by lia.
    pose proof (pow2_pos (da - 1) ltac:(lia)). pose proof (pow2_pos (db - 1) ltac:(lia)).
    apply Z.mul_le_mono_nonneg; lia. }
  apply digits2_gt in H2; lia.
Qed.

Lemma rounded_finite (s : bool) (m3 : positive) (e3 : Z) :
  e3 <= 971 -> rounded s (Zpos m3) e3 = S754_finite s m3 e3.
Proof.
  intros H. unfold rounded. replace (e3 <=? emax - prec) with true; [reflexivity |].
  symmetry. apply Z.leb_le. unfold emax, prec. lia.
Qed.

Lemma mul_bounded (mx mu my : positive) (ex eu ey : Z) :
  canonical (Zpos mx) ex -> ex <= 971 ->
  canonical (Zpos mu) eu -> eu <= ex -> Zpos mu <= Zpos mx * 2 ^ (ex - eu) ->
  canonical (Zpos my) ey -> ey <= 0 -> Zpos my <= 2 ^ (- ey) ->
  mul (S754_finite false mu eu) (S754_finite false my ey) = S754_zero false \/
  exists (m3 : positive) (e3 : Z),
    mul (S754_finite false mu eu) (S754_finite false my ey) = S754_finite false m3 e3 /\
    canonical (Zpos m3) e3 /\ e3 <= ex /\ Zpos m3 <= Zpos mx * 2 ^ (ex - e3).
Proof.
  intros Cx Bx Cu Hu Vu Cy Hy Vy.
  unfold mul, SFmul. cbn [xorb].
  destruct (canonical_digits _ _ Cu) as (Eu & Du & Nu).
  destruct (canonical_digits _ _ Cy) as (Ey & Dy & Ny).
  pose proof (digits2_mul mu my) as Hd.
  assert (1 <= Zpos (digits2_pos mu)) by lia.
  assert (1 <= Zpos (digits2_pos my)) by lia.
  destruct (round_le false mx (mu * my) ex (eu + ey)) as (m3 & e3 & Er & Hm3 & Hpos).
  - exact Cx.
  - lia.
  - rewrite Pos2Z.inj_mul.
    replace (ex - (eu + ey)) with (ex - eu + - ey) by lia.
    rewrite pow2_add by lia.
    pose proof (pow2_pos (ex - eu) ltac:(lia)). pose proof (pow2_pos (- ey) ltac:(lia)).
    rewrite Z.mul_assoc. apply Z.mul_le_mono_nonneg; lia.
  - lia.
  - rewrite Er. destruct m3 as [| p3 | p3]; try lia.
    + now left.
    + right. destruct (Hpos ltac:(lia)) as (C3 & E3 & V3).
      exists p3, e3. rewrite rounded_finite by lia. repeat split; assumption.
Qed.

Lemma of_int_1 : of_int 1 = S754_finite false 4503599627370496 (-52).
Proof. vm_compute. reflexivity. Qed.

Lemma of_int_0 : of_int 0 = S754_zero false.
Proof. reflexivity. Qed.

Lemma pow2_52 : 2 ^ (- -52) = 4503599627370496.
Proof. reflexivity. Qed.

Lemma le_one_finite (my : positive) (ey : Z) :
  canonical (Zpos my) ey ->
  le (S754_finite false my ey) (of_int 1) = true ->
  ey <= 0 /\ Zpos my <= 2 ^ (- ey).
Proof.
  intros Cy. destruct (canonical_digits _ _ Cy) as (Ey & Dy & _).
  pose proof (digits2_bounds my) as [_ Bhi].
  rewrite of_int_1.
  unfold le, SFleb, SFcompare.
  destruct (Z.compare_spec ey (-52)) as [E | L | G].
  - rewrite Pos.compare_cont_spec. unfold Pos.switch_Eq.
    subst ey. clear Bhi Dy Ey Cy.
    rewrite Pos2Z.inj_compare.
    destruct (Z.compare_spec (Zpos my) 4503599627370496) as [E2 | L2 | G2].
    + intros _. split; [lia |]. rewrite pow2_52. lia.
    + intros _. split; [lia |]. rewrite pow2_52. lia.
    + intros H. discriminate H.
  - intros _. split; [lia |].
    pose proof (pow2_le (Zpos (digits2_pos my)) (- ey) ltac:(lia)). lia.
  - discriminate.
Qed.

Lemma le_finite (m3 mx : positive) (e3 ex : Z) :
  e3 <= ex -> Zpos m3 <= Zpos mx * 2 ^ (ex - e3) ->
  le (S754_finite false m3 e3) (S754_finite false mx ex) = true.
Proof.
  intros He Hv. unfold le, SFleb, SFcompare.
  destruct (Z.compare_spec e3 ex) as [E | L | G].
  - subst e3. rewrite Z.sub_diag, Z.pow_0_r, Z.mul_1_r in Hv.
    rewrite Pos.compare_cont_spec. unfold Pos.switch_Eq. rewrite Pos2Z.inj_compare.
    destruct (Z.compare_spec (Zpos m3) (Zpos mx)) as [E2 | L2 | G2]; try reflexivity. lia.
  - reflexivity.
  - lia.
Qed.

(** [P * et * eg <= P] for a non-negative [P] and factors in (0, 1]. *)
Lemma mul_fraction_twice (P et eg : float) :
  is_float P -> is_float et -> is_float eg ->
  le (of_int 0) P = true ->
  lt (of_int 0) et = true -> le et (of_int 1) = true ->
  lt (of_int 0) eg = true -> le eg (of_int 1) = true ->
  le (mul (mul P et) eg) P = true.
Proof.
  intros VP Vt Vg HP Ht0 Ht1 Hg0 Hg1.
  rewrite of_int_0 in HP, Ht0, Hg0.
  destruct et as [st | st | | st mt et]; try discriminate;
    [destruct st; discriminate | destruct st; [discriminate |]].
  destruct eg as [sg | sg | | sg mg eg]; try discriminate;
    [destruct sg; discriminate | destruct sg; [discriminate |]].
  destruct (bounded_canonical _ _ Vt) as [Ct _].
  destruct (bounded_canonical _ _ Vg) as [Cg _].
  destruct (le_one_finite _ _ Ct Ht1) as [Et Mt].
  destruct (le_one_finite _ _ Cg Hg1) as [Eg Mg].
  destruct P as [sp | sp | | sp mp ep]; try discriminate.
  - destruct sp; reflexivity.
  - destruct sp; [discriminate | reflexivity].
  - destruct sp; [discriminate |].
    destruct (bounded_canonical _ _ VP) as [CP BP].
    destruct (mul_bounded mp mp mt ep ep et) as [E1 | (m3 & e3 & E1 & C3 & H3 & V3)];
      try assumption; try lia.
    { rewrite Z.sub_diag, Z.pow_0_r. lia. }
    + rewrite E1. reflexivity.
    + rewrite E1.
      destruct (mul_bounded mp m3 mg ep e3 eg) as [E2 | (m4 & e4 & E2 & C4 & H4 & V4)];
        try assumption.
      * rewrite E2. reflexivity.
      * rewrite E2. apply le_finite; assumption.
Qed.

(** *** Signs *)

(** A rounded result is NaN or carries the sign it was given. *)
Lemma binary_round_aux_shape (s : bool) (m e : Z) (l : location) :
  let r := binary_round_aux prec emax s m e l in
  r = S754_nan \/ r = S754_zero s \/ r = S754_infinity s \/
  exists (m' : positive) (e' : Z), r = S754_finite s m' e'.
Proof.
  unfold binary_round_aux.
  destruct (shr_fexp prec emax m e l) as [mrs' e'].
  destruct (shr_fexp prec emax _ e' loc_Exact) as [mrs'' e''].
  destruct (shr_m mrs'') as [| p | p]; cbn zeta.
  - right; left; reflexivity.
  - destruct (Z.leb e'' (emax - prec)).
    + right; right; right. eauto.
    + right; right; left. reflexivity.
  - left. reflexivity.
Qed.

Lemma binary_round_aux_not_negative (m e : Z) (l : location) :
  not_negative (binary_round_aux prec emax false m e l).
Proof.
  destruct (binary_round_aux_shape false m e l) as [E | [E | [E | (m' & e' & E)]]];
    rewrite E; simpl; trivial.
Qed.

Lemma mul_not_negative (x y : float) :
  not_negative x -> not_negative y -> not_negative (mul x y).
Proof.
  destruct x as [sx | sx | | sx mx ex], y as [sy | sy | | sy my ey];
    simpl; trivial; try (intros -> ->; reflexivity);
    try (intros _ ->; reflexivity); try (intros -> _; reflexivity).
  intros -> ->. apply binary_round_aux_not_negative.
Qed.

Lemma fdiv_not_negative (x y : float) :
  not_negative x -> is_positive y -> not_negative (fdiv x y).
Proof.
  destruct x as [sx | sx | | sx mx ex], y as [sy | [|] | | [|] my ey];
    simpl; trivial; try contradiction; try (intros -> _; reflexivity).
  intros -> _. unfold fdiv, SFdiv. cbn [xorb].
  destruct (SFdiv_core_binary prec emax (Z.pos mx) ex (Z.pos my) ey) as [[mz ez] lz].
  apply binary_round_aux_not_negative.
Qed.

Lemma sqrt_not_negative (x : float) : not_negative x -> not_negative (sqrt x).
Proof.
  destruct x as [sx | sx | | sx mx ex]; simpl; trivial.
  - intros ->. reflexivity.
  - intros ->. unfold sqrt, SFsqrt.
    destruct (SFsqrt_core_binary prec emax (Z.pos mx) ex) as [[mz ez] lz].
    apply binary_round_aux_not_negative.
Qed.

Ltac float_cases x :=
  destruct x as [[|] | [|] | | [|] ? ?];
  cbn [le lt eq SFleb SFltb SFeqb SFcompare not_negative is_positive].

Ltac close_case :=
  repeat split; intros;
  try match goal with H : _ = _ |- _ => discriminate H end;
  try contradiction; try reflexivity; try exact I; try discriminate.

Lemma not_negative_lt (x : float) : not_negative x <-> lt x (of_int 0) = false.
Proof. rewrite of_int_0. float_cases x; close_case. Qed.

Lemma le_zero_shape (x : float) :
  le (of_int 0) x = true -> not_negative x /\ x <> S754_nan.
Proof. rewrite of_int_0. float_cases x; close_case. Qed.

Lemma lt_zero_positive (x : float) : lt (of_int 0) x = true <-> is_positive x.
Proof. rewrite of_int_0. float_cases x; close_case. Qed.


Lemma positive_not_le_zero (x : float) : is_positive x -> le x (of_int 0) = false.
Proof. rewrite of_int_0. float_cases x; close_case. Qed.

Lemma positive_not_zero (x : float) : is_positive x -> eq x (of_int 0) = false.
Proof. rewrite of_int_0. float_cases x; close_case. Qed.

(** *** [penstock_diameter] *)

Lemma math_pi_value : math_pi = S754_finite false 7074237752028440 (-51).
Proof. vm_compute. reflexivity. Qed.

Lemma math_pi_digits : Zpos (digits2_pos 7074237752028440) = 53.
Proof. vm_compute. reflexivity. Qed.

(** The product of a positive float with a normal float that is at least 1
    is not zero: it cannot underflow below the least subnormal. *)
Lemma mul_normal_positive (mc : positive) (ec : Z) (v : float) :
  Zpos (digits2_pos mc) = 53 -> -52 <= ec ->
  is_float v -> is_positive v ->
  is_positive (mul (S754_finite false mc ec) v).
Proof.
  intros Hc Hec Vv Pv.
  destruct v as [sv | [|] | | [|] mv ev]; simpl in Pv; try contradiction.
  - exact I.
  - destruct (bounded_canonical _ _ Vv) as [Cv _].
    destruct (canonical_digits _ _ Cv) as (Ev & _ & _).
    pose proof (digits2_mul mc mv) as Hd.
    assert (1 <= Zpos (digits2_pos mv)) by lia.
    unfold mul, SFmul. cbn [xorb].
    destruct (binary_round_aux_nonzero false (mc * mv) (ec + ev) ltac:(lia))
      as [-> | (m3 & e3 & ->)]; exact I.
Qed.

Lemma mul_pi_positive (v : float) :
  is_float v -> is_positive v -> is_positive (mul math_pi v).
Proof.
  intros Vv Pv. rewrite math_pi_value.
  apply mul_normal_positive; [exact math_pi_digits | lia | exact Vv | exact Pv].
Qed.

Lemma of_int_4 : of_int 4 = S754_finite false 4503599627370496 (-50).
Proof. vm_compute. reflexivity. Qed.

Lemma b64_penstock_diameter_guard (Q v : float) :
  le v (of_int 0) = true -> penstock_diameter Q v = Return None.
Proof. intros H. unfold penstock_diameter. now rewrite H. Qed.

Lemma b64_penstock_diameter_value (Q v : float) :
  is_float v -> is_positive v -> not_negative Q ->
  penstock_diameter Q v
  = Return (Some (sqrt (fdiv (mul (of_int 4) Q) (mul math_pi v)))) /\
  not_negative (sqrt (fdiv (mul (of_int 4) Q) (mul math_pi v))).
Proof.
  intros Vv Pv NQ.
  pose proof (mul_pi_positive v Vv Pv) as Ppv.
  assert (N4 : not_negative (mul (of_int 4) Q)).
  { apply mul_not_negative; [rewrite of_int_4; reflexivity | exact NQ]. }
  pose proof (fdiv_not_negative _ _ N4 Ppv) as Nq.
  pose proof (sqrt_not_negative _ Nq) as ND.
  split; [| exact ND].
  unfold penstock_diameter, div, math_sqrt.
  rewrite positive_not_le_zero by exact Pv.
  rewrite positive_not_zero by exact Ppv. cbn [bind].
  rewrite (proj1 (not_negative_lt _) Nq). reflexivity.
Qed.




(** C3, amended: for every float [v_mps > 0] and every [Q_m3s >= 0],
    [penstock_diameter] returns, raising nothing, the float computed as
    [sqrt(4 * Q_m3s / (pi * v_mps))] in binary64 arithmetic; that float is
    never negative, and it is zero whenever [Q_m3s] is zero. *)
Theorem b64_penstock_diameter_formula (Q_m3s v_mps : float) :
  is_float v_mps -> lt (of_int 0) v_mps = true -> le (of_int 0) Q_m3s = true ->
  penstock_diameter Q_m3s v_mps
  = Return (Some (sqrt (fdiv (mul (of_int 4) Q_m3s) (mul math_pi v_mps)))) /\
  lt (sqrt (fdiv (mul (of_int 4) Q_m3s) (mul math_pi v_mps))) (of_int 0) = false /\
  (eq Q_m3s (of_int 0) = true ->
   eq (sqrt (fdiv (mul (of_int 4) Q_m3s) (mul math_pi v_mps))) (of_int 0) = true).
Proof.
  intros Vv Hv HQ. apply lt_zero_positive in Hv.
  destruct (le_zero_shape _ HQ) as [NQ _].
  destruct (b64_penstock_diameter_value Q_m3s v_mps Vv Hv NQ) as [E N].
  split; [exact E |]. split; [apply not_negative_lt, N |].
  intros HZ. pose proof (mul_pi_positive v_mps Vv Hv) as Ppv.
  rewrite of_int_4.
  destruct Q_m3s as [sq | sq | | sq mq eq']; try discriminate HZ;
    try (destruct sq; discriminate HZ).
  destruct (mul math_pi v_mps) as [sp | [|] | | [|] mp ep]; try contradiction;
    destruct sq; reflexivity.
Qed.

Lemma b64_penstock_diameter_formula_witness :
  penstock_diameter (of_int 0) (of_int 1)
  = Return (Some (sqrt (fdiv (mul (of_int 4) (of_int 0)) (mul math_pi (of_int 1))))) /\
  lt (sqrt (fdiv (mul (of_int 4) (of_int 0)) (mul math_pi (of_int 1)))) (of_int 0) = false /\
  (eq (of_int 0) (of_int 0) = true ->
   eq (sqrt (fdiv (mul (of_int 4) (of_int 0)) (mul math_pi (of_int 1)))) (of_int 0) = true).
Proof.
  apply (b64_penstock_diameter_formula (of_int 0) (of_int 1)); vm_compute; reflexivity.
Defined.

(** C3, the claim as stated fails: for the discharge 1.0 and the velocity
    1e308 the quotient underflows and the diameter is 0.0 although the
    discharge is not zero; for discharge and velocity both 1e308 the two
    products overflow and the diameter is NaN, for which [0 <= D] is
    false. *)
Lemma b64_penstock_diameter_zero_or_nan :
  (is_float (of_int 1) /\ is_float (of_int (10 ^ 308)) /\
   lt (of_int 0) (of_int (10 ^ 308)) = true /\ le (of_int 0) (of_int 1) = true /\
   eq (of_int 1) (of_int 0) = false /\
   penstock_diameter (of_int 1) (of_int (10 ^ 308)) = Return (Some (S754_zero false)) /\
   eq (S754_zero false) (of_int 0) = true) /\
  (le (of_int 0) (of_int (10 ^ 308)) = true /\
   penstock_diameter (of_int (10 ^ 308)) (of_int (10 ^ 308)) = Return (Some S754_nan) /\
   le (of_int 0) S754_nan = false).
Proof. vm_compute. repeat split. Qed.

Lemma rho_g_value :
  mul (of_int 1000) (dec 981 2) = S754_finite false 5393104534241280 (-39).
Proof. vm_compute. reflexivity. Qed.

(** A rounded product is never NaN. *)
(** *** Powers *)

(** The product of two finite floats is not NaN. *)
Lemma mul_finite_not_nan (sx sy : bool) (mx my : positive) (ex ey : Z) :
  mul (S754_finite sx mx ex) (S754_finite sy my ey) <> S754_nan.
Proof.
  unfold mul, SFmul.
  destruct (binary_round_aux_exact (xorb sx sy) (mx * my) (ex + ey))
    as (m2 & Hm2 & ->). cbn zeta in Hm2.
  assert (H0 : 0 <= Zpos (mx * my) / 2 ^ shift_of (Zpos (mx * my)) (ex + ey)).
  { apply Z.div_pos; [lia |]. apply pow2_pos. unfold shift_of. lia. }
  assert (H2 : 0 <= m2) by (destruct Hm2 as [-> | [-> _]]; lia).
  set (n2 := shift_of m2 _).
  assert (H3 : 0 <= m2 / 2 ^ n2).
  { apply Z.div_pos; [lia |]. apply pow2_pos. unfold n2, shift_of. lia. }
  unfold rounded. destruct (m2 / 2 ^ n2) as [| p | p]; try lia; try discriminate.
  destruct (_ <=? _); discriminate.
Qed.

(** The product of two floats is a float. *)
Lemma mul_valid (x y : float) : is_float x -> is_float y -> is_float (mul x y).
Proof.
  intros Vx Vy.
  destruct x as [sx | sx | | sx mx ex], y as [sy | sy | | sy my ey];
    try (lazymatch goal with
         | |- is_float (mul (S754_finite _ _ _) (S754_finite _ _ _)) => fail
         | |- _ => reflexivity
         end).
  destruct (bounded_canonical _ _ Vx) as [Cx _].
  destruct (bounded_canonical _ _ Vy) as [Cy _].
  destruct (canonical_digits _ _ Cx) as (Ex & Dx & Nx).
  destruct (canonical_digits _ _ Cy) as (Ey & Dy & Ny).
  pose proof (digits2_mul mx my) as Hd.
  assert (1 <= Zpos (digits2_pos mx)) by lia.
  assert (1 <= Zpos (digits2_pos my)) by lia.
  unfold mul, SFmul.
  destruct (round_core (xorb sx sy) (mx * my) (ex + ey) ltac:(lia))
    as (m2 & m3 & e3 & -> & _ & Hm3 & _ & _ & Hcan).
  unfold rounded. destruct m3 as [| p3 | p3]; try lia; try reflexivity.
  destruct (e3 <=? emax - prec) eqn:Eb; [| reflexivity].
  apply Z.leb_le in Eb. unfold emax, prec in Eb.
  apply canonical_bounded; [apply Hcan; lia | lia].
Qed.

(** With a discharge that is not negative [penstock_diameter] raises
    nothing, whatever the float velocity. *)
Lemma penstock_diameter_returns (Q v : float) :
  is_float v -> not_negative Q -> exists r, penstock_diameter Q v = Return r.
Proof.
  intros Vv NQ.
  destruct (le v (of_int 0)) eqn:Hle.
  - eexists. apply b64_penstock_diameter_guard, Hle.
  - rewrite of_int_0 in Hle.
    destruct v as [sv | [|] | | [|] mv ev]; try discriminate Hle.
    + eexists. apply (b64_penstock_diameter_value Q _ Vv I NQ).
    + eexists. unfold penstock_diameter, div, math_sqrt.
      rewrite math_pi_value, !of_int_0. cbn [le SFleb SFcompare mul SFmul bind].
      cbn [eq SFeqb SFcompare].
      assert (En : forall x : float, fdiv x S754_nan = S754_nan)
        by (intros [| | |]; reflexivity).
      rewrite En. reflexivity.
    + eexists. apply (b64_penstock_diameter_value Q _ Vv I NQ).
Qed.

Lemma dec_283168_value : dec 283168 7 = S754_finite false 8161761915412791 (-58).
Proof. vm_compute. reflexivity. Qed.

Lemma dec_3048_value : dec 3048 4 = S754_finite false 5490788665690109 (-54).
Proof. vm_compute. reflexivity. Qed.

(** Lines 54-64 complete when the discharge is not negative. *)
Lemma b64_evaluate_returns (i : inputs) :
  is_float (v_fps i) -> le (of_int 0) (Q_cusec i) = true ->
  exists D : option float,
    penstock_diameter (cusec_to_m3s (Q_cusec i)) (fps_to_mps (v_fps i)) = Return D /\
    evaluate i =
      Return (Computed (cusec_to_m3s (Q_cusec i)) (fps_to_mps (v_fps i))
                (of_int 1000) (dec 981 2)
                (hydraulic_power (of_int 1000) (dec 981 2)
                   (cusec_to_m3s (Q_cusec i)) (H_m i))
                (actual_power
                   (hydraulic_power (of_int 1000) (dec 981 2)
                      (cusec_to_m3s (Q_cusec i)) (H_m i))
                   (eta_turbine i) (eta_generator i))
                D).
Proof.
  intros Vv HQ. destruct (le_zero_shape _ HQ) as [NQ _].
  assert (NQm : not_negative (cusec_to_m3s (Q_cusec i))).
  { unfold cusec_to_m3s. rewrite dec_283168_value.
    apply mul_not_negative; [exact NQ | reflexivity]. }
  assert (Vvm : is_float (fps_to_mps (v_fps i))).
  { unfold fps_to_mps. rewrite dec_3048_value.
    apply mul_valid; [exact Vv | reflexivity]. }
  destruct (penstock_diameter_returns _ _ Vvm NQm) as [D E].
  exists D. split; [exact E |]. unfold evaluate. rewrite E. reflexivity.
Qed.

(** C6, amended: [hydraulic_power] returns [rho * g * Q_m3s * H_m],
    multiplied from left to right in binary64; the pipeline calls it with
    [rho = 1000] and [g = 9.81]; with these constants and [Q_m3s >= 0],
    [H_m >= 0] the result is never negative; it is zero when [Q_m3s] is
    zero and the head is finite, and when the head is zero and
    [1000 * 9.81 * Q_m3s] is finite. *)
Theorem b64_hydraulic_power_spec :
  (forall rho g Q_m3s H_m : float,
      hydraulic_power rho g Q_m3s H_m = mul (mul (mul rho g) Q_m3s) H_m) /\
  (forall (i : inputs) (c : computed), evaluate i = Return c ->
      rho c = of_int 1000 /\ g c = dec 981 2 /\
      P_hydraulic_W c = hydraulic_power (of_int 1000) (dec 981 2) (Q_m3s c) (H_m i)) /\
  (forall i : inputs, is_float (v_fps i) -> le (of_int 0) (Q_cusec i) = true ->
      exists c : computed, evaluate i = Return c /\
        P_hydraulic_W c
        = hydraulic_power (of_int 1000) (dec 981 2) (cusec_to_m3s (Q_cusec i)) (H_m i)) /\
  (forall Q_m3s H_m : float,
      le (of_int 0) Q_m3s = true -> le (of_int 0) H_m = true ->
      lt (hydraulic_power (of_int 1000) (dec 981 2) Q_m3s H_m) (of_int 0) = false /\
      (eq Q_m3s (of_int 0) = true -> lt H_m infinity = true ->
       eq (hydraulic_power (of_int 1000) (dec 981 2) Q_m3s H_m) (of_int 0) = true) /\
      (eq H_m (of_int 0) = true ->
       lt (mul (mul (of_int 1000) (dec 981 2)) Q_m3s) infinity = true ->
       eq (hydraulic_power (of_int 1000) (dec 981 2) Q_m3s H_m) (of_int 0) = true)).
Proof.
  split; [reflexivity |]. split; [| split].
  - intros i c E. unfold evaluate, bind in E.
    destruct (penstock_diameter _ _); [| discriminate].
    injection E as <-. repeat split.
  - intros i Vv HQ. destruct (b64_evaluate_returns i Vv HQ) as (D & _ & E).
    eexists. split; [exact E | reflexivity].
  - intros Q H HQ HH. unfold hydraulic_power.
    destruct (le_zero_shape _ HQ) as [NQ _].
    destruct (le_zero_shape _ HH) as [NH _].
    rewrite rho_g_value. split; [| split].
    + apply not_negative_lt. apply mul_not_negative; [| exact NH].
      apply mul_not_negative; [reflexivity | exact NQ].
    + intros ZQ FH.
      destruct Q as [sq | sq | | sq mq eq']; try discriminate ZQ;
        try (destruct sq; discriminate ZQ).
      destruct H as [sh | [|] | | [|] mh eh]; try discriminate FH;
        try discriminate HH; destruct sq; try destruct sh; reflexivity.
    + intros ZH FP.
      destruct H as [sh | sh | | sh mh eh]; try discriminate ZH;
        try (destruct sh; discriminate ZH).
      destruct Q as [sq | [|] | | [|] mq eq']; try discriminate HQ;
        try discriminate FP.
      * destruct sq, sh; reflexivity.
      * pose proof (mul_finite_not_nan false false 5393104534241280 mq (-39) eq') as NN.
        pose proof (mul_not_negative (S754_finite false 5393104534241280 (-39))
                      (S754_finite false mq eq') eq_refl eq_refl) as NP.
        destruct (mul (S754_finite false 5393104534241280 (-39)) (S754_finite false mq eq'))
          as [sp | [|] | | [|] mp ep]; try discriminate FP; try discriminate NP;
          try (now elim NN); destruct sh; try destruct sp; reflexivity.
Qed.

Lemma b64_hydraulic_power_spec_witness :
  (exists c : computed,
      evaluate scenario1 = Return c /\
      rho c = of_int 1000 /\ g c = dec 981 2 /\
      P_hydraulic_W c
      = hydraulic_power (of_int 1000) (dec 981 2) (Q_m3s c) (H_m scenario1)) /\
  lt (hydraulic_power (of_int 1000) (dec 981 2) (of_int 2) (of_int 3)) (of_int 0) = false /\
  eq (hydraulic_power (of_int 1000) (dec 981 2) (of_int 0) (of_int 3)) (of_int 0) = true /\
  eq (hydraulic_power (of_int 1000) (dec 981 2) (of_int 2) (of_int 0)) (of_int 0) = true.
Proof.
  destruct b64_hydraulic_power_spec as (_ & Hev & Hex & Hpos).
  split; [| split; [| split]].
  - destruct (Hex scenario1 eq_refl eq_refl) as (c & E & _).
    exists c. split; [exact E |]. apply (Hev scenario1 c E).
  - apply (proj1 (Hpos (of_int 2) (of_int 3) eq_refl eq_refl)).
  - apply (proj1 (proj2 (Hpos (of_int 0) (of_int 3) eq_refl eq_refl))); reflexivity.
  - apply (proj2 (proj2 (Hpos (of_int 2) (of_int 0) eq_refl eq_refl))); reflexivity.
Defined.

(** C6, the claim as stated fails: with the discharge 1e305 and a zero
    head the partial product overflows to infinity and the result is NaN,
    neither [>= 0] nor zero; with discharge and head both 1e-200, neither
    zero, the product underflows to zero. *)
Lemma b64_hydraulic_power_nan_and_underflow :
  (is_float (of_int (10 ^ 305)) /\
   le (of_int 0) (of_int (10 ^ 305)) = true /\ le (of_int 0) (of_int 0) = true /\
   hydraulic_power (of_int 1000) (dec 981 2) (of_int (10 ^ 305)) (of_int 0) = S754_nan /\
   le (of_int 0) S754_nan = false /\ eq S754_nan (of_int 0) = false) /\
  (is_float (S754_finite false 6894565328877484 (-717)) /\
   le (of_int 0) (S754_finite false 6894565328877484 (-717)) = true /\
   eq (S754_finite false 6894565328877484 (-717)) (of_int 0) = false /\
   eq (hydraulic_power (of_int 1000) (dec 981 2)
         (S754_finite false 6894565328877484 (-717))
         (S754_finite false 6894565328877484 (-717))) (of_int 0) = true).
Proof. vm_compute. repeat split. Qed.



(** C9, the figures of the claim fail on the code: on the inputs of
    scenario 1 the converted velocity is not the float 1.8288 (it is
    1.8288000000000002); the hydraulic power is more than 100 W above the
    quoted 555458.5 W; the electrical power is more than 50 W above the
    quoted 424925.8 W; and the diameter is above 1.4035 m, so to three
    decimals it is not 1.403 m. *)
Lemma b64_scenario1_quoted_figures_off :
  exists (c : computed) (D : float),
    evaluate scenario1 = Return c /\
    v_mps c <> dec 18288 4 /\
    lt (dec 5555585 1) (P_hydraulic_W c) = true /\
    lt (dec 4249758 1) (P_actual_W c) = true /\
    D_penstock c = Some D /\
    lt (dec 14035 4) D = true.
Proof.
  do 2 eexists. split; [vm_compute; reflexivity |].
  cbn [v_mps P_hydraulic_W P_actual_W D_penstock].
  split; [vm_compute; discriminate |].
  repeat split; vm_compute; reflexivity.
Qed.

(** C9, amended: on the inputs 100 cusec, 6 ft/s, 20 m, 85 and 90 percent
    the efficiencies are 0.85 and 0.90; the converted discharge is 2.83168
    and the converted velocity is 1.8288 to nine decimals; the hydraulic
    power is [1000 * 9.81 * 2.83168 * 20], within 0.05 W of 555575.6 W; the
    electrical power is within 0.05 W of 425015.3 W, that is 0.425 MW to
    three decimals; the diameter is
    [sqrt(4 * Q_m3s / (pi * v_mps))], within 0.0005 m of 1.404 m; and the
    recommendation is the Kaplan/Propeller label. *)
Theorem b64_scenario1_figures :
  exists (c : computed) (D : float),
    evaluate scenario1 = Return c /\
    eta_turbine scenario1 = dec 85 2 /\
    eta_generator scenario1 = dec 90 2 /\
    Q_m3s c = dec 283168 5 /\
    between (dec 18287999999 10) (v_mps c) (dec 18288000001 10) = true /\
    P_hydraulic_W c
    = hydraulic_power (of_int 1000) (dec 981 2) (dec 283168 5) (of_int 20) /\
    between (dec 55557555 2) (P_hydraulic_W c) (dec 55557565 2) = true /\
    between (dec 42501525 2) (P_actual_W c) (dec 42501535 2) = true /\
    between (dec 4245 4) (fdiv (P_actual_W c) (of_int 1000000)) (dec 4255 4) = true /\
    D_penstock c = Some D /\
    D = sqrt (fdiv (mul (of_int 4) (Q_m3s c)) (mul math_pi (v_mps c))) /\
    between (dec 14035 4) D (dec 14045 4) = true /\
    suggest_turbine (H_m scenario1) = "Kaplan / Propeller Turbine (Low Head)"%string.
Proof.
  do 2 eexists. split; [vm_compute; reflexivity |].
  cbn [Q_m3s v_mps P_hydraulic_W P_actual_W D_penstock].
  repeat split; vm_compute; reflexivity.
Qed.

(** *** Exceptions *)

Lemma penstock_diameter_raise_inv (Q v : float) (e : exn) :
  is_float v -> penstock_diameter Q v = Raise e ->
  e = ValueError /\ is_positive v /\ lt Q (of_int 0) = true.
Proof.
  intros Vv HR.
  destruct (lt Q (of_int 0)) eqn:HQ.
  - assert (Pv : is_positive v).
    { destruct (le v (of_int 0)) eqn:Hle.
      - rewrite b64_penstock_diameter_guard in HR by exact Hle. discriminate.
      - rewrite of_int_0 in Hle.
        destruct v as [sv | [|] | | [|] mv ev]; try discriminate Hle; try exact I.
        exfalso. revert HR. unfold penstock_diameter, div, math_sqrt.
        rewrite math_pi_value, !of_int_0.
        cbn [le SFleb SFcompare mul SFmul bind eq SFeqb].
        assert (En : forall x : float, fdiv x S754_nan = S754_nan)
          by (intros [| | |]; reflexivity).
        rewrite En. discriminate. }
    split; [| split; [exact Pv | reflexivity]].
    pose proof (mul_pi_positive v Vv Pv) as Ppv.
    revert HR. unfold penstock_diameter, div, math_sqrt.
    rewrite positive_not_le_zero by exact Pv.
    rewrite positive_not_zero by exact Ppv. cbn [bind].
    set (q := fdiv _ _). generalize (sqrt q). intros D.
    destruct (lt q (of_int 0)); cbn [bind]; intros H; [| discriminate H].
    injection H as <-. reflexivity.
  - apply not_negative_lt in HQ.
    destruct (penstock_diameter_returns Q v Vv HQ) as [r Er].
    rewrite Er in HR. discriminate.
Qed.

(** X5: on binary64, whenever [penstock_diameter] raises with a float
    velocity, the exception is [ValueError] (never [ZeroDivisionError]: the
    product [pi * v_mps] of a positive float is never zero), the velocity
    is positive and the discharge is negative. *)
Theorem b64_penstock_diameter_raise (Q_m3s v_mps : float) (e : exn) :
  is_float v_mps -> penstock_diameter Q_m3s v_mps = Raise e ->
  e = ValueError /\ lt (of_int 0) v_mps = true /\ lt Q_m3s (of_int 0) = true.
Proof.
  intros Vv HR.
  destruct (penstock_diameter_raise_inv _ _ _ Vv HR) as (E & P & N).
  split; [exact E |]. split; [apply lt_zero_positive, P | exact N].
Qed.

Lemma b64_penstock_diameter_raise_witness :
  ValueError = ValueError /\
  lt (of_int 0) (of_int 1) = true /\ lt (of_int (-1)) (of_int 0) = true.
Proof.
  apply (b64_penstock_diameter_raise (of_int (-1)) (of_int 1) ValueError);
    vm_compute; reflexivity.
Defined.

(** A product with a positive finite constant has the sign of the other
    factor. *)
Lemma mul_const_positive_inv (x : float) (mc : positive) (ec : Z) :
  is_positive (mul x (S754_finite false mc ec)) -> is_positive x.
Proof.
  destruct x as [sx | [|] | | [|] mx ex]; cbn [mul SFmul xorb is_positive];
    intros H; try contradiction; try exact I.
  revert H.
  destruct (binary_round_aux_shape true (Zpos (mx * mc)) (ex + ec) loc_Exact)
    as [E | [E | [E | (m' & e' & E)]]]; rewrite E; simpl; trivial.
Qed.

Lemma mul_const_negative_inv (x : float) (mc : positive) (ec : Z) :
  lt (mul x (S754_finite false mc ec)) (of_int 0) = true -> lt x (of_int 0) = true.
Proof.
  rewrite of_int_0.
  destruct x as [sx | [|] | | [|] mx ex];
    cbn [mul SFmul xorb lt SFltb SFcompare];
    intros H; try discriminate H; try reflexivity.
  exfalso. revert H.
  destruct (binary_round_aux_shape false (Zpos (mx * mc)) (ex + ec) loc_Exact)
    as [E | [E | [E | (m' & e' & E)]]]; rewrite E; simpl; discriminate.
Qed.

(** X6: on binary64 the evaluation of lines 54-64 completes on every
    input with a float velocity and a discharge [>= 0]; when it raises,
    the exception is [ValueError], the velocity entered is positive and
    the discharge entered is negative. *)
Theorem b64_evaluate_raise (i : inputs) :
  is_float (v_fps i) ->
  (le (of_int 0) (Q_cusec i) = true -> exists c : computed, evaluate i = Return c) /\
  (forall e : exn, evaluate i = Raise e ->
     e = ValueError /\
     lt (of_int 0) (v_fps i) = true /\ lt (Q_cusec i) (of_int 0) = true).
Proof.
  intros Vv. split.
  - intros HQ. destruct (b64_evaluate_returns i Vv HQ) as (D & _ & E). eauto.
  - intros e HR.
    assert (Vvm : is_float (fps_to_mps (v_fps i))).
    { unfold fps_to_mps. rewrite dec_3048_value.
      apply mul_valid; [exact Vv | reflexivity]. }
    assert (HP : penstock_diameter (cusec_to_m3s (Q_cusec i)) (fps_to_mps (v_fps i))
                 = Raise e).
    { revert HR. unfold evaluate, bind.
      destruct (penstock_diameter _ _); [discriminate |].
      intros H. injection H as <-. reflexivity. }
    destruct (penstock_diameter_raise_inv _ _ _ Vvm HP) as (E & P & N).
    split; [exact E |]. split.
    + apply lt_zero_positive. unfold fps_to_mps in P. rewrite dec_3048_value in P.
      exact (mul_const_positive_inv _ _ _ P).
    + unfold cusec_to_m3s in N. rewrite dec_283168_value in N.
      exact (mul_const_negative_inv _ _ _ N).
Qed.

Lemma b64_evaluate_raise_witness :
  (exists c : computed, evaluate scenario1 = Return c) /\
  (ValueError = ValueError /\
   lt (of_int 0) (of_int 6) = true /\ lt (of_int (-100)) (of_int 0) = true).
Proof.
  split.
  - apply (proj1 (b64_evaluate_raise scenario1 eq_refl)). vm_compute. reflexivity.
  - apply (proj2 (b64_evaluate_raise (Inputs (of_int (-100)) (of_int 6) (of_int 20) 85 90)
                    eq_refl) ValueError).
    vm_compute. reflexivity.
Defined.

(** *** Inputs within the widget bounds *)

Lemma le_finite_shape (m1 : positive) (e1 : Z) (v : float) :
  le (S754_finite false m1 e1) v = true ->
  v = S754_infinity false \/
  exists (mv : positive) (ev : Z), v = S754_finite false mv ev /\ e1 <= ev.
Proof.
  destruct v as [sv | [|] | | [|] mv ev]; cbn [le SFleb SFcompare];
    try discriminate; try (destruct sv; discriminate).
  - now left.
  - right. exists mv, ev. split; [reflexivity |].
    destruct (Z.compare_spec e1 ev); try lia; discriminate.
Qed.

Lemma dec_1_1_value : dec 1 1 = S754_finite false 7205759403792794 (-56).
Proof. vm_compute. reflexivity. Qed.

Lemma digits_3048 : Zpos (digits2_pos 5490788665690109) = 53.
Proof. vm_compute. reflexivity. Qed.

Lemma fps_to_mps_positive (v : float) :
  le (dec 1 1) v = true -> is_positive (fps_to_mps v).
Proof.
  rewrite dec_1_1_value. intros H.
  unfold fps_to_mps. rewrite dec_3048_value.
  destruct (le_finite_shape _ _ _ H) as [-> | (mv & ev & -> & He)]; [exact I |].
  unfold mul, SFmul. cbn [xorb].
  pose proof (digits2_mul mv 5490788665690109) as Hd.
  rewrite digits_3048 in Hd.
  assert (1 <= Zpos (digits2_pos mv)) by lia.
  destruct (binary_round_aux_nonzero false (mv * 5490788665690109) (ev + -54)
              ltac:(lia)) as [-> | (m3 & e3 & ->)]; exact I.
Qed.

(** X7: on binary64, for a velocity of at least 0.1 ft/s (the floor of
    the widget) and a discharge [>= 0], the converted velocity is positive,
    so the velocity guard never fires: the evaluation completes with a
    float diameter, never [None], and that diameter is never negative. *)
Theorem b64_widget_inputs_never_absent (i : inputs) :
  is_float (v_fps i) ->
  le (dec 1 1) (v_fps i) = true -> le (of_int 0) (Q_cusec i) = true ->
  exists (c : computed) (D : float),
    evaluate i = Return c /\
    lt (of_int 0) (v_mps c) = true /\
    D_penstock c = Some D /\ lt D (of_int 0) = false.
Proof.
  intros Vv Hv HQ. destruct (le_zero_shape _ HQ) as [NQ _].
  assert (NQm : not_negative (cusec_to_m3s (Q_cusec i))).
  { unfold cusec_to_m3s. rewrite dec_283168_value.
    apply mul_not_negative; [exact NQ | reflexivity]. }
  assert (Vvm : is_float (fps_to_mps (v_fps i))).
  { unfold fps_to_mps. rewrite dec_3048_value.
    apply mul_valid; [exact Vv | reflexivity]. }
  pose proof (fps_to_mps_positive _ Hv) as Pvm.
  destruct (b64_penstock_diameter_value _ _ Vvm Pvm NQm) as [E N].
  do 2 eexists. split; [unfold evaluate; rewrite E; reflexivity |].
  cbn [v_mps D_penstock]. split; [apply lt_zero_positive, Pvm |].
  split; [reflexivity | apply not_negative_lt, N].
Qed.

Lemma b64_widget_inputs_never_absent_witness :
  exists (c : computed) (D : float),
    evaluate scenario1 = Return c /\
    lt (of_int 0) (v_mps c) = true /\
    D_penstock c = Some D /\ lt D (of_int 0) = false.
Proof.
  apply (b64_widget_inputs_never_absent scenario1); vm_compute; reflexivity.
Defined.

(** *** Inputs within the slider range *)

Lemma range_1_100 (P : Z -> bool) :
  forallb P (map Z.of_nat (seq 1 100)) = true ->
  forall s : Z, 1 <= s <= 100 -> P s = true.
Proof.
  intros H s Hs. rewrite forallb_forall in H. apply H.
  apply in_map_iff. exists (Z.to_nat s). split; [lia |].
  apply in_seq. lia.
Qed.

Lemma slider_efficiency (s : Z) :
  1 <= s <= 100 ->
  is_float (int_div s 100) /\
  lt (of_int 0) (int_div s 100) = true /\
  le (int_div s 100) (of_int 1) = true /\
  le (dec 1 2) (int_div s 100) = true.
Proof.
  intros Hs.
  pose proof (range_1_100
    (fun s => valid_binary prec emax (int_div s 100)
              && lt (of_int 0) (int_div s 100)
              && le (int_div s 100) (of_int 1)
              && le (dec 1 2) (int_div s 100))
    ltac:(vm_compute; reflexivity) s Hs) as H.
  cbv beta in H. rewrite !andb_true_iff in H.
  destruct H as [[[H1 H2] H3] H4]. repeat split; assumption.
Qed.

Lemma not_negative_cases (x : float) :
  not_negative x -> x = S754_nan \/ le (of_int 0) x = true.
Proof.
  rewrite of_int_0. float_cases x; intros H; try discriminate H; auto.
Qed.

(** X13: on binary64 inputs within the widget bounds both efficiencies
    ([slider / 100]) are floats in [0.01, 1], and the electrical power does
    not exceed the hydraulic power, the one exception being a hydraulic
    power that is NaN, in which case the electrical power is NaN too. *)
Theorem b64_efficiency_bounds (i : inputs) :
  is_float (Q_cusec i) -> is_float (v_fps i) -> is_float (H_m i) ->
  le (of_int 0) (Q_cusec i) = true -> le (of_int 0) (H_m i) = true ->
  1 <= turbine_slider i <= 100 -> 1 <= generator_slider i <= 100 ->
  exists c : computed,
    evaluate i = Return c /\
    between (dec 1 2) (eta_turbine i) (of_int 1) = true /\
    between (dec 1 2) (eta_generator i) (of_int 1) = true /\
    (le (P_actual_W c) (P_hydraulic_W c) = true \/
     (P_hydraulic_W c = S754_nan /\ P_actual_W c = S754_nan)).
Proof.
  intros VQ Vv VH HQ HH Ht Hg.
  destruct (b64_evaluate_returns i Vv HQ) as (D & _ & E).
  destruct (slider_efficiency _ Ht) as (Vt & T0 & T1 & T2).
  destruct (slider_efficiency _ Hg) as (Vg & G0 & G1 & G2).
  eexists. split; [exact E |]. cbn [P_actual_W P_hydraulic_W].
  unfold between, eta_turbine, eta_generator.
  rewrite T1, T2, G1, G2. split; [reflexivity |]. split; [reflexivity |].
  set (P := hydraulic_power _ _ _ _).
  assert (VP : is_float P).
  { unfold P, hydraulic_power, cusec_to_m3s.
    apply mul_valid; [| exact VH].
    apply mul_valid; [vm_compute; reflexivity |].
    apply mul_valid; [exact VQ | vm_compute; reflexivity]. }
  assert (NP : not_negative P).
  { unfold P, hydraulic_power, cusec_to_m3s.
    destruct (le_zero_shape _ HQ) as [NQ _]. destruct (le_zero_shape _ HH) as [NH _].
    rewrite rho_g_value, dec_283168_value.
    apply mul_not_negative; [| exact NH].
    apply mul_not_negative; [reflexivity |].
    apply mul_not_negative; [exact NQ | reflexivity]. }
  destruct (not_negative_cases _ NP) as [EP | LP].
  - right. split; [exact EP |]. rewrite EP. reflexivity.
  - left. unfold actual_power. apply mul_fraction_twice; assumption.
Qed.

Lemma b64_efficiency_bounds_witness :
  exists c : computed,
    evaluate scenario1 = Return c /\
    between (dec 1 2) (eta_turbine scenario1) (of_int 1) = true /\
    between (dec 1 2) (eta_generator scenario1) (of_int 1) = true /\
    (le (P_actual_W c) (P_hydraulic_W c) = true \/
     (P_hydraulic_W c = S754_nan /\ P_actual_W c = S754_nan)).
Proof.
  apply (b64_efficiency_bounds scenario1);
    try (vm_compute; reflexivity); simpl; lia.
Defined.

(** The exception is real: a discharge of 1e307 cusec with a zero head
    gives NaN for both powers. *)
Lemma b64_powers_nan :
  exists c : computed,
    evaluate (Inputs (of_int (10 ^ 307)) (of_int 6) (of_int 0) 85 90) = Return c /\
    P_hydraulic_W c = S754_nan /\ P_actual_W c = S754_nan /\
    le (P_actual_W c) (P_hydraulic_W c) = false.
Proof. eexists. split; [vm_compute; reflexivity |]. repeat split. Qed.

Lemma of_int_300 : of_int 300 = S754_finite false 5277655813324800 (-44).
Proof. vm_compute. reflexivity. Qed.

Lemma of_int_50 : of_int 50 = S754_finite false 7036874417766400 (-47).
Proof. vm_compute. reflexivity. Qed.

(** X15: on binary64 heads [suggest_turbine] gives the Pelton label
    exactly when [H > 300], the Francis label exactly when
    [50 <= H <= 300], and the Kaplan/Propeller label in every other case:
    for every head below 50 and also for NaN, which fails all three
    comparisons. *)
Theorem b64_suggest_turbine_classification (H : float) :
  (suggest_turbine H = Pelton <-> lt (of_int 300) H = true) /\
  (suggest_turbine H = Francis <->
   le (of_int 50) H = true /\ le H (of_int 300) = true) /\
  (suggest_turbine H = Kaplan_Propeller <->
   lt (of_int 300) H = false /\ (le (of_int 50) H = false \/ le H (of_int 300) = false)) /\
  (lt H (of_int 50) = true -> suggest_turbine H = Kaplan_Propeller) /\
  (H = S754_nan -> suggest_turbine H = Kaplan_Propeller).
Proof.
  assert (Hex : lt (of_int 300) H = true -> le H (of_int 300) = false).
  { rewrite of_int_300.
    destruct H as [sh | [|] | | [|] mh eh]; cbn [lt le SFltb SFleb SFcompare];
      try discriminate; try reflexivity.
    destruct (Z.compare_spec (-44) eh) as [E | L | G]; try discriminate.
    - subst eh. rewrite Z.compare_refl, !Pos.compare_cont_spec.
      unfold Pos.switch_Eq. rewrite Pos.compare_antisym.
      destruct (Pos.compare mh 5277655813324800); simpl; try discriminate; reflexivity.
    - intros _. destruct (Z.compare_spec eh (-44)); try lia; reflexivity. }
  assert (Hlow : lt H (of_int 50) = true ->
                 lt (of_int 300) H = false /\ le (of_int 50) H = false).
  { rewrite of_int_300, of_int_50.
    destruct H as [sh | [|] | | [|] mh eh]; cbn [lt le SFltb SFleb SFcompare];
      try discriminate; try (split; reflexivity).
    destruct (Z.compare_spec eh (-47)) as [E | L | G]; try discriminate.
    - subst eh. change (Z.compare (-44) (-47)) with Gt. rewrite Z.compare_refl.
      rewrite !Pos.compare_cont_spec. unfold Pos.switch_Eq.
      rewrite (Pos.compare_antisym mh 7036874417766400).
      destruct (Pos.compare mh 7036874417766400); simpl; try discriminate.
      intros _. split; reflexivity.
    - intros _.
      destruct (Z.compare_spec (-44) eh); try lia;
        destruct (Z.compare_spec (-47) eh); try lia; split; reflexivity. }
  assert (Hnan : H = S754_nan -> le (of_int 50) H = false).
  { intros ->. rewrite of_int_50. reflexivity. }
  assert (Hnan3 : H = S754_nan -> lt (of_int 300) H = false).
  { intros ->. rewrite of_int_300. reflexivity. }
  unfold suggest_turbine, Pelton, Francis, Kaplan_Propeller.
  destruct (lt (of_int 300) H) eqn:E300.
  - pose proof (Hex eq_refl) as E3.
    split; [split; reflexivity |].
    split; [split; [discriminate | intros [_ C]; congruence] |].
    split; [split; [discriminate | intros [C _]; discriminate] |].
    split; [intros L; destruct (Hlow L) as [C _]; congruence |].
    intros N. specialize (Hnan3 N). congruence.
  - destruct (le (of_int 50) H) eqn:E50, (le H (of_int 300)) eqn:E3; cbn [andb].
    + split; [split; discriminate |].
      split; [split; [intros _; split |]; reflexivity |].
      split; [split; [discriminate | intros [_ [C | C]]; discriminate] |].
      split; [intros L; destruct (Hlow L) as [_ C]; congruence |].
      intros N. specialize (Hnan N). congruence.
    + split; [split; discriminate |].
      split; [split; [discriminate | intros [_ C]; discriminate] |].
      split; [split; [intros _; split; [reflexivity | now right] | reflexivity] |].
      split; reflexivity.
    + split; [split; discriminate |].
      split; [split; [discriminate | intros [C _]; discriminate] |].
      split; [split; [intros _; split; [reflexivity | now left] | reflexivity] |].
      split; reflexivity.
    + split; [split; discriminate |].
      split; [split; [discriminate | intros [C _]; discriminate] |].
      split; [split; [intros _; split; [reflexivity | now left] | reflexivity] |].
      split; reflexivity.
Qed.

Lemma b64_suggest_turbine_classification_witness :
  suggest_turbine (of_int 20) = Kaplan_Propeller.
Proof.
  apply (proj1 (proj2 (proj2 (proj2 (b64_suggest_turbine_classification (of_int 20)))))).
  vm_compute. reflexivity.
Defined.

End Binary64.
